(** * MCP tools server: session handshake, request dispatch and SSE framing

    A shallow embedding of [mcp_server/server.py] and
    [mcp_server/services/mcp_server.py].  Python values are modelled as
    follows.

    - A [str] is a [string]; every character of an HTTP header value is one
      [ascii] (the framework decodes header bytes as latin-1, code points
      0..255).  [bytes] are [list byte].
    - A JSON value (the [Any] of the request parameters, the [dict] literals of
      the results) is the inductive [json]; a [dict] is an association list in
      insertion order with unique keys.
    - [self.sessions] is a [gmap string MCPSession]; the session objects are
      only reached through that dict, so a mutation of a session is an update
      of the map.
    - The user service behind the tools is an abstract state [US] that every
      [execute] threads; an exception is a value of [pyexn].
    - [uuid.uuid4()] and the event loop's clock are inputs of each request
      ([Env]). *)

From Stdlib Require Import ZArith NArith Ascii String List Bool Lia.
From Stdlib Require Import Strings.Byte DecimalString Sorted.
From stdpp Require Import base option gmap strings.
Import ListNotations.

Set Warnings "-register-all".

(* stdpp keeps [simpl] from unfolding string append; the proofs below compute
   with it. *)
#[local] Arguments String.append !_ _ / : simpl nomatch.

Local Open Scope string_scope.
Local Open Scope Z_scope.

(** ** Python strings *)

Module PyStr.

(** The line feed; Rocq's string literals have no escapes. *)
Definition LF : string := String (ascii_of_nat 10) EmptyString.

(** Truth value of a [str]: the empty string is false. *)
Definition truthy (s : string) : bool :=
  match s with
  | EmptyString => false
  | String _ _ => true
  end.

(** [str.isspace] for one character below 256: TAB..CR, FS..US, space,
    NEL and the no-break space. *)
Definition isspace (c : ascii) : bool :=
  let n := N_of_ascii c in
  ((9 <=? n) && (n <=? 13) || (28 <=? n) && (n <=? 32)
   || (n =? 133) || (n =? 160))%N.

(** [str.lower] for one character below 256: A..Z and the accented capitals
    0xC0..0xDE (but the multiplication sign 0xD7) move up by 32. *)
Definition lower_char (c : ascii) : ascii :=
  let n := N_of_ascii c in
  if ((65 <=? n) && (n <=? 90)
      || (192 <=? n) && (n <=? 222) && negb (n =? 215))%N
  then ascii_of_N (n + 32) else c.

Fixpoint lower (s : string) : string :=
  match s with
  | EmptyString => EmptyString
  | String c r => String (lower_char c) (lower r)
  end.

Fixpoint lstrip (s : string) : string :=
  match s with
  | EmptyString => EmptyString
  | String c r => if isspace c then lstrip r else s
  end.

Fixpoint rstrip (s : string) : string :=
  match s with
  | EmptyString => EmptyString
  | String c r =>
      match rstrip r with
      | EmptyString => if isspace c then EmptyString else String c EmptyString
      | r' => String c r'
      end
  end.

(** [s.strip()] *)
Definition strip (s : string) : string := rstrip (lstrip s).

(** [s.split(sep)] for a one-character separator: never the empty list. *)
Fixpoint split (sep : ascii) (s : string) : list string :=
  match s with
  | EmptyString => [EmptyString]
  | String c r =>
      if Ascii.eqb c sep then EmptyString :: split sep r
      else match split sep r with
           | [] => [String c EmptyString]
           | h :: t => String c h :: t
           end
  end.

Fixpoint startswith (p s : string) : bool :=
  match p, s with
  | EmptyString, _ => true
  | String a p', String b s' => Ascii.eqb a b && startswith p' s'
  | String _ _, EmptyString => false
  end.

(** [needle in hay] *)
Fixpoint contains (needle hay : string) : bool :=
  startswith needle hay
  || match hay with
     | EmptyString => false
     | String _ r => contains needle r
     end.

(** [s.replace(c, empty)] for a one-character [c] and the empty string. *)
Fixpoint remove_char (c : ascii) (s : string) : string :=
  match s with
  | EmptyString => EmptyString
  | String a r =>
      if Ascii.eqb a c then remove_char c r else String a (remove_char c r)
  end.

(** [s.encode("utf-8")], the characters of [s] being the bytes. *)
Definition encode (s : string) : list byte := list_byte_of_string s.

End PyStr.

(** ** JSON values and dicts *)

Inductive json : Type :=
| JNull
| JBool (b : bool)
| JNum (z : Z)
| JStr (s : string)
| JArr (l : list json)
| JObj (l : list (string * json)).

Module PyDict.
Section Dict.
Context {V : Type}.

(** [d.get(k)]: [None] when the key is absent. *)
Fixpoint get (k : string) (d : list (string * V)) : option V :=
  match d with
  | [] => None
  | (k', v) :: r => if String.eqb k k' then Some v else get k r
  end.

(** [k in d] for a string key. *)
Definition mem (k : string) (d : list (string * V)) : bool :=
  match get k d with Some _ => true | None => false end.

(** [d[k] = v]: an existing key keeps its position, a new key goes last. *)
Fixpoint set (k : string) (v : V) (d : list (string * V)) : list (string * V) :=
  match d with
  | [] => [(k, v)]
  | (k', v') :: r =>
      if String.eqb k k' then (k, v) :: r else (k', v') :: set k v r
  end.

(** [d.values()] *)
Definition values (d : list (string * V)) : list V := map snd d.
End Dict.
End PyDict.

(** Truth value of a JSON value ([not x] is its negation). *)
Definition truthy (j : json) : bool :=
  match j with
  | JNull => false
  | JBool b => b
  | JNum z => negb (z =? 0)
  | JStr s => PyStr.truthy s
  | JArr l => match l with [] => false | _ => true end
  | JObj l => match l with [] => false | _ => true end
  end.

(** [params.get(k)] as a JSON value: an absent key gives [None]. *)
Definition get_json (k : string) (d : list (string * json)) : json :=
  match PyDict.get k d with Some v => v | None => JNull end.

(** [params.get(k, default)] *)
Definition get_default (k : string) (default : json) (d : list (string * json)) : json :=
  match PyDict.get k d with Some v => v | None => default end.

(** ** The Accept header *)

(** [_validate_accept_header] of server.py. *)
Definition _validate_accept_header (accept_header : option string) : bool :=
  match accept_header with
  | None => false
  | Some h =>
      if negb (PyStr.truthy h) then false
      else
        let accept_types :=
          map (fun t => PyStr.lower (PyStr.strip t)) (PyStr.split "," h) in
        let has_json := existsb (PyStr.contains "application/json") accept_types in
        let has_sse := existsb (PyStr.contains "text/event-stream") accept_types in
        has_json && has_sse
  end.

(** ** Requests, responses, exceptions *)

(** Modelled from the spec: models/request.py is not among the sources.  A
    JSON-RPC request has an [id] (echoed, opaque; [JNull] when the client sent
    none), a [method] and an optional key-value map [params]. *)
Record MCPRequest : Type := mkRequest {
  req_id : json;
  method : string;
  params : option (list (string * json))
}.

(** Modelled from the spec: models/response.py is not among the sources.  An
    error carries an integer [code] and a [message]. *)
Record ErrorResponse : Type := mkError {
  code : Z;
  message : string
}.

(** Modelled from the spec: models/response.py is not among the sources.  A
    JSON-RPC response has an [id], a [result] and an [error]; a field that is
    not passed to the constructor is [None]. *)
Record MCPResponse : Type := mkResponse {
  resp_id : json;
  result : option json;
  error : option ErrorResponse
}.

(** The exceptions that the modelled code can let escape. *)
Inductive pyexn : Type :=
| TypeError (msg : string)
| KeyError (key : string).

(** What awaiting [tool.execute(arguments)] gives: the returned text, or an
    exception of class [Exception] (what [except Exception] catches) whose
    [str()] is [msg]. *)
Inductive executed : Type :=
| Returns (text : string)
| Raises (msg : string).

(** ** Session ids *)

Module Uuid.
Local Open Scope N_scope.

Definition hex_digit (n : N) : ascii :=
  match n with
  | 0 => "0" | 1 => "1" | 2 => "2" | 3 => "3" | 4 => "4" | 5 => "5"
  | 6 => "6" | 7 => "7" | 8 => "8" | 9 => "9" | 10 => "a" | 11 => "b"
  | 12 => "c" | 13 => "d" | 14 => "e" | _ => "f"
  end%char.

(** The [i]-th hexadecimal digit of [u], counted from the least significant. *)
Definition nibble (u : N) (i : nat) : ascii :=
  hex_digit (N.land (N.shiftr u (4 * N.of_nat i)) 15).

(** The digits [hi-1 .. lo] of [u], most significant first. *)
Fixpoint digits (u : N) (lo : nat) (count : nat) : string :=
  match count with
  | O => EmptyString
  | S k => String (nibble u (lo + k)) (digits u lo k)
  end.

(** ['%032x' % u] for a 128-bit [u]: the 32 digits of [u] modulo 2^128. *)
Definition hex32 (u : N) : string := digits u 0 32.

(** [str(u)] for a UUID whose integer is [u]: the 32 digits in groups of
    8, 4, 4, 4 and 12, joined by hyphens. *)
Definition str (u : N) : string :=
  digits u 24 8 +:+ "-" +:+ digits u 20 4 +:+ "-" +:+ digits u 16 4
  +:+ "-" +:+ digits u 12 4 +:+ "-" +:+ digits u 0 12.

Definition is_hex (c : ascii) : bool :=
  let n := N_of_ascii c in
  (48 <=? n) && (n <=? 57) || (97 <=? n) && (n <=? 102).

(** The value of a hexadecimal digit. *)
Definition hex_value (c : ascii) : N :=
  let n := N_of_ascii c in
  if (48 <=? n) && (n <=? 57) then n - 48 else n - 87.
End Uuid.

(** What one request draws from outside: the integer of the UUID that
    [uuid.uuid4()] returns and the reading of the event loop's clock. *)
Record Env : Type := mkEnv {
  uuid4 : N;
  loop_time : Z
}.

(** ** Sessions *)

(** [MCPSession] of services/mcp_server.py. *)
Record MCPSession : Type := mkSession {
  session_id : string;
  ready_for_operation : bool;
  created_at : Z;
  last_activity : Z
}.

(** [MCPSession.__init__] *)
Definition MCPSession_init (now : Z) (sid : string) : MCPSession :=
  {| session_id := sid;
     ready_for_operation := false;
     created_at := now;
     last_activity := now |}.

Definition set_last_activity (t : Z) (s : MCPSession) : MCPSession :=
  {| session_id := session_id s;
     ready_for_operation := ready_for_operation s;
     created_at := created_at s;
     last_activity := t |}.

Definition set_ready_for_operation (b : bool) (s : MCPSession) : MCPSession :=
  {| session_id := session_id s;
     ready_for_operation := b;
     created_at := created_at s;
     last_activity := last_activity s |}.

(** ** Tools and the collaborators outside the sources *)

(** A tool object: the properties [name], [description], [input_schema] and
    the coroutine [execute], which runs against the user service. *)
Record Tool (US : Type) : Type := mkTool {
  name : string;
  description : string;
  input_schema : json;
  execute : json -> US -> executed * US
}.

Arguments mkTool {US} _ _ _ _.
Arguments name {US} _.
Arguments description {US} _.
Arguments input_schema {US} _.
Arguments execute {US} _ _ _.

(** What the sources import and do not define: the user service with the
    calls the tools make on it (each field is the body of the [try] block of
    the tool's [execute]), the schema of the [UserCreate] model, the whole of
    [UpdateUserTool], pydantic's [model_dump_json] (its argument is
    [exclude_none]) and [json.dumps]. *)
Class Collaborators : Type := {
  US : Type;
  get_user : json -> US -> executed * US;
  search_users : json -> US -> executed * US;
  add_user : json -> US -> executed * US;
  delete_user : json -> US -> executed * US;
  UserCreate_model_json_schema : json;
  UpdateUserTool : Tool US;
  model_dump_json : bool -> MCPResponse -> string;
  dumps : json -> string
}.

(** [str(x)] as an f-string renders a JSON value.  The rendering of a list or
    a dict is not modelled: the one f-string over a request value,
    [f"Tool '{tool_name}' not found"], is reached by hashable values only. *)
Definition py_str (j : json) : string :=
  match j with
  | JNull => "None"
  | JBool true => "True"
  | JBool false => "False"
  | JNum z => DecimalString.NilZero.string_of_int (Z.to_int z)
  | JStr s => s
  | JArr _ => "[...]"
  | JObj _ => "{...}"
  end.

(** [k in d] for a key [k] of any JSON type and a dict [d] with string keys:
    a list or a dict is unhashable, the other non-string values are hashable
    and equal to no string. *)
Definition key_in {V : Type} (k : json) (d : list (string * V)) : pyexn + bool :=
  match k with
  | JStr s => inr (PyDict.mem s d)
  | JArr _ => inl (TypeError "unhashable type: 'list'")
  | JObj _ => inl (TypeError "unhashable type: 'dict'")
  | _ => inr false
  end.

(** [d[k]] once [k in d] holds. *)
Definition getitem {V : Type} (k : json) (d : list (string * V)) : option V :=
  match k with
  | JStr s => PyDict.get s d
  | _ => None
  end.

Section Server.
Context `{C : Collaborators}.

(** *** The tool classes *)

(** [try: return await body(arguments)] / [except Exception as e: return
    f"{prefix}: {str(e)}"], the shape of every [execute] in
    tools/users. *)
Definition guarded (prefix : string) (body : json -> US -> executed * US)
    (arguments : json) (us : US) : executed * US :=
  match body arguments us with
  | (Returns text, us') => (Returns text, us')
  | (Raises msg, us') => (Returns (prefix +:+ ": " +:+ msg), us')
  end.

Definition id_schema : json :=
  JObj [("type", JStr "object");
        ("properties",
          JObj [("id", JObj [("type", JStr "number");
                             ("description", JStr "User id")])]);
        ("required", JArr [JStr "id"])].

Definition GetUserByIdTool : Tool US :=
  mkTool "get_user_by_id" "Gets user by id" id_schema
    (guarded "Error while retrieving user by id" get_user).

Definition SearchUsersTool : Tool US :=
  mkTool "search_users"
    "Search users by name, surname, email, gender (all params are optional)"
    (JObj [("type", JStr "object");
           ("properties",
             JObj [("name", JObj [("type", JStr "string");
                                  ("description", JStr "User name")]);
                   ("surname", JObj [("type", JStr "string");
                                     ("description", JStr "User surname")]);
                   ("email", JObj [("type", JStr "string");
                                   ("description", JStr "User email")]);
                   ("gender", JObj [("type", JStr "string");
                                    ("description", JStr "User gender");
                                    ("enum", JArr [JStr "male"; JStr "female"])])]);
           ("required", JArr [])])
    (guarded "Error while searching users" search_users).

Definition CreateUserTool : Tool US :=
  mkTool "add_user" "Adds new user" UserCreate_model_json_schema
    (guarded "Error while creating a new user" add_user).

Definition DeleteUserTool : Tool US :=
  mkTool "delete_users" "Deletes users" id_schema
    (guarded "Error while deleting user by id" delete_user).

(** Modelled from the spec: tools/users/base.py is not among the sources.
    [to_mcp_tool] gives the MCP wire shape [{name, description,
    inputSchema}]. *)
Definition to_mcp_tool (tool : Tool US) : json :=
  JObj [("name", JStr (name tool));
        ("description", JStr (description tool));
        ("inputSchema", input_schema tool)].

(** *** MCPServer *)

Record MCPServer : Type := mkServer {
  protocol_version : string;
  server_info : json;
  sessions : gmap string MCPSession;
  tools : list (string * Tool US)
}.

Definition with_sessions (m : gmap string MCPSession) (self : MCPServer) : MCPServer :=
  {| protocol_version := protocol_version self;
     server_info := server_info self;
     sessions := m;
     tools := tools self |}.

(** [_register_tools]: the loop [self.tools[tool.name] = tool] over the
    list of the five tools, from the empty dict. *)
Definition _register_tools : list (string * Tool US) :=
  let tools_list :=
    [GetUserByIdTool; SearchUsersTool; CreateUserTool; UpdateUserTool;
     DeleteUserTool] in
  fold_left (fun d tool => PyDict.set (name tool) tool d) tools_list [].

(** [MCPServer.__init__] *)
Definition MCPServer_init : MCPServer :=
  {| protocol_version := "2024-11-05";
     server_info := JObj [("name", JStr "custom-ums-mcp-server");
                          ("version", JStr "1.0.0")];
     sessions := ∅;
     tools := _register_tools |}.

(** [_validate_protocol_version]; no method of the class calls it. *)
Definition _validate_protocol_version (self : MCPServer) (client_version : json) : json :=
  let supported_versions := ["2024-11-05"] in
  match client_version with
  | JStr v =>
      if existsb (String.eqb v) supported_versions then client_version
      else JStr (protocol_version self)
  | _ => JStr (protocol_version self)
  end.

(** [get_session]: a session that is found has its [last_activity] set. *)
Definition get_session (now : Z) (sid : string) (self : MCPServer)
    : option MCPSession * MCPServer :=
  match sessions self !! sid with
  | Some session =>
      let session' := set_last_activity now session in
      (Some session', with_sessions (<[sid := session']> (sessions self)) self)
  | None => (None, self)
  end.

(** [handle_initialize].  [request.params] is true when it is a dict with at
    least one entry. *)
Definition handle_initialize (env : Env) (request : MCPRequest) (self : MCPServer)
    : (MCPResponse * string) * MCPServer :=
  let sid := PyStr.remove_char "-" (Uuid.str (uuid4 env)) in
  let session := MCPSession_init (loop_time env) sid in
  let self' := with_sessions (<[sid := session]> (sessions self)) self in
  let protocol_version :=
    match params request with
    | Some ((_ :: _) as p) => get_json "protocolVersion" p
    | _ => JStr (protocol_version self)
    end in
  let response :=
    {| resp_id := req_id request;
       result :=
         Some (JObj [("protocolVersion", protocol_version);
                     ("capabilities",
                       JObj [("tools", JObj []);
                             ("resources", JObj []);
                             ("prompts", JObj [])]);
                     ("serverInfo", server_info self)]);
       error := None |} in
  ((response, sid), self').

(** [handle_tools_list] *)
Definition handle_tools_list (self : MCPServer) (request : MCPRequest) : MCPResponse :=
  let tools_list := map to_mcp_tool (PyDict.values (tools self)) in
  {| resp_id := req_id request;
     result := Some (JObj [("tools", JArr tools_list)]);
     error := None |}.

Definition error_response (id : json) (c : Z) (msg : string) : MCPResponse :=
  {| resp_id := id; result := None; error := Some (mkError c msg) |}.

Definition text_content (text : string) : json :=
  JArr [JObj [("type", JStr "text"); ("text", JStr text)]].

(** [handle_tools_call]: the coroutine, run against the user service.
    [not request.params] holds for [None] and for the empty dict. *)
Definition handle_tools_call (self : MCPServer) (request : MCPRequest) (us : US)
    : (pyexn + MCPResponse) * US :=
  match params request with
  | Some ((_ :: _) as p) =>
      let tool_name := get_json "name" p in
      let arguments := get_default "arguments" (JObj []) p in
      if negb (truthy tool_name) then
        (inr (error_response (req_id request) 32602
                "Missing required parameter: name"), us)
      else
        match key_in tool_name (tools self) with
        | inl e => (inl e, us)
        | inr false =>
            (inr (error_response (req_id request) 32601
                    ("Tool '" +:+ py_str tool_name +:+ "' not found")), us)
        | inr true =>
            match getitem tool_name (tools self) with
            | None => (inl (KeyError (py_str tool_name)), us)
            | Some tool =>
                match execute tool arguments us with
                | (Returns text, us') =>
                    (inr {| resp_id := req_id request;
                            result := Some (JObj [("content", text_content text)]);
                            error := None |}, us')
                | (Raises msg, us') =>
                    (inr {| resp_id := req_id request;
                            result :=
                              Some (JObj [("content",
                                            text_content ("Tool execution error: " +:+ msg));
                                          ("isError", JBool true)]);
                            error := None |}, us')
                end
            end
        end
  | _ =>
      (inr (error_response (req_id request) 32602 "Missing parameters"), us)
  end.

End Server.

(** ** The endpoint (server.py) *)

Definition MCP_SESSION_ID_HEADER : string := "Mcp-Session-Id".

(** The body of a reply: the [content] string of a [Response], no content,
    or the chunks that a [StreamingResponse] sends while it drains its
    generator, with the exception that ended the generator early, if any. *)
Inductive Body : Type :=
| Content (s : string)
| NoContent
| Streaming (chunks : list (list byte)) (raised : option pyexn).

(** A [Response] or [StreamingResponse] as the handler builds it; a header
    value is the Python value given for it, [None] included. *)
Record Response : Type := mkReply {
  status_code : Z;
  content : Body;
  media_type : option string;
  headers : list (string * option string)
}.

Section Endpoint.
Context `{C : Collaborators}.

(** An element of [messages] once it is no longer awaited: an object with
    [model_dump_json] (an [MCPResponse]), an object with [dict] (given by
    what [dict(exclude_none=True)] returns), or a plain JSON value. *)
Inductive object : Type :=
| Model (r : MCPResponse)
| HasDict (d : json)
| Plain (j : json).

(** An element of [messages]: an awaitable, which runs against the user
    service when awaited and gives an object or raises, or an object. *)
Inductive sse_message : Type :=
| Awaitable (run : US -> (pyexn + object) * US)
| Object (o : object).

Definition payload (o : object) : string :=
  match o with
  | Model r => model_dump_json true r
  | HasDict d => dumps d
  | Plain j => dumps j
  end.

(** One frame: [(prefix + payload + suffix).encode("utf-8")]. *)
Definition frame (o : object) : list byte :=
  let prefix := "data: " in
  let suffix := PyStr.LF +:+ PyStr.LF in
  PyStr.encode (prefix +:+ payload o +:+ suffix).

(** The last chunk, [b"data: [DONE]\n\n"]. *)
Definition DONE : list byte :=
  PyStr.encode ("data: [DONE]" +:+ PyStr.LF +:+ PyStr.LF).

Definition await (m : sse_message) (us : US) : (pyexn + object) * US :=
  match m with
  | Awaitable run => run us
  | Object o => (inr o, us)
  end.

(** [_create_sse_stream], drained: the chunks yielded in order, the
    exception that stopped the generator (if one did), and the user service
    afterwards. *)
Fixpoint _create_sse_stream (messages : list sse_message) (us : US)
    : list (list byte) * option pyexn * US :=
  match messages with
  | [] => ([DONE], None, us)
  | m :: rest =>
      match await m us with
      | (inl e, us') => ([], Some e, us')
      | (inr o, us') =>
          let '(chunks, raised, us'') := _create_sse_stream rest us' in
          (frame o :: chunks, raised, us'')
      end
  end.

(** The objects that [messages] stand for, each awaitable awaited in its
    turn; the first exception ends it. *)
Fixpoint await_all (messages : list sse_message) (us : US)
    : (pyexn + list object) * US :=
  match messages with
  | [] => (inr [], us)
  | m :: rest =>
      match await m us with
      | (inl e, us') => (inl e, us')
      | (inr o, us') =>
          match await_all rest us' with
          | (inl e, us'') => (inl e, us'')
          | (inr objects, us'') => (inr (o :: objects), us'')
          end
      end
  end.

(** The coroutine [mcp_server.handle_tools_call(request)] as a message. *)
Definition tools_call_coroutine (self : MCPServer) (request : MCPRequest) : sse_message :=
  Awaitable (fun us =>
    match handle_tools_call self request us with
    | (inl e, us') => (inl e, us')
    | (inr r, us') => (inr (Model r), us')
    end).

Definition StreamingResponse (messages : list sse_message)
    (mcp_session_id : option string) (us : US) : Response * US :=
  let '(chunks, raised, us') := _create_sse_stream messages us in
  ({| status_code := 200;
      content := Streaming chunks raised;
      media_type := Some "text/event-stream";
      headers := [("Cache-Control", Some "no-cache");
                  ("Connection", Some "keep-alive");
                  (MCP_SESSION_ID_HEADER, mcp_session_id)] |}, us').

Definition option_truthy (s : option string) : bool :=
  match s with
  | Some s => PyStr.truthy s
  | None => false
  end.

(** What one call of the endpoint leaves behind: the reply, the headers set
    on the injected [response] object, the server and the user service. *)
Record Handled : Type := mkHandled {
  reply : Response;
  injected_headers : list (string * string);
  server : MCPServer;
  user_service : US
}.

(** [handle_mcp_request] *)
Definition handle_mcp_request (env : Env) (request : MCPRequest)
    (accept : option string) (mcp_session_id : option string)
    (self : MCPServer) (us : US) : Handled :=
  if negb (_validate_accept_header accept) then
    let error_response :=
      error_response (JStr "server-error") (-32600)
        "Client must accept both application/json and text/event-stream" in
    mkHandled
      {| status_code := 406;
         content := Content (model_dump_json false error_response);
         media_type := Some "application/json";
         headers := [] |} [] self us
  else if String.eqb (method request) "initialize" then
    let '((mcp_response, sid), self') := handle_initialize env request self in
    let injected :=
      if PyStr.truthy sid then [(MCP_SESSION_ID_HEADER, sid)] else [] in
    let mcp_session_id :=
      if PyStr.truthy sid then Some sid else mcp_session_id in
    let '(r, us') :=
      StreamingResponse [Object (Model mcp_response)] mcp_session_id us in
    mkHandled r injected self' us'
  else if negb (option_truthy mcp_session_id) then
    let error_response :=
      error_response (JStr "server-error") (-32600) "Missing session ID" in
    mkHandled
      {| status_code := 400;
         content := Content (model_dump_json false error_response);
         media_type := Some "application/json";
         headers := [] |} [] self us
  else
    let sid := match mcp_session_id with Some s => s | None => EmptyString end in
    match get_session (loop_time env) sid self with
    | (None, self') =>
        mkHandled
          {| status_code := 400;
             content := Content "No valid session ID provided";
             media_type := None;
             headers := [] |} [] self' us
    | (Some session, self') =>
        if String.eqb (method request) "notifications/initialized" then
          let session' := set_ready_for_operation true session in
          mkHandled
            {| status_code := 202;
               content := NoContent;
               media_type := None;
               headers := [(MCP_SESSION_ID_HEADER, Some (session_id session'))] |}
            []
            (with_sessions (<[sid := session']> (sessions self')) self') us
        else if negb (ready_for_operation session) then
          let error_response :=
            error_response (JStr "server-error") (-32600) "Missing session ID" in
          mkHandled
            {| status_code := 400;
               content := Content (model_dump_json false error_response);
               media_type := Some "application/json";
               headers := [] |} [] self' us
        else
          let mcp_response :=
            if String.eqb (method request) "tools/list" then
              Object (Model (handle_tools_list self' request))
            else if String.eqb (method request) "tools/call" then
              tools_call_coroutine self' request
            else
              Object (Model (error_response (req_id request) (-32602)
                               ("Method '" +:+ method request +:+ "' not found")))
          in
          let '(r, us') := StreamingResponse [mcp_response] mcp_session_id us in
          mkHandled r [] self' us'
    end.

End Endpoint.

(** ** Properties named by the specification *)

(** [needle] occurs in [hay]. *)
Definition is_substring (needle hay : string) : Prop :=
  exists pre post, hay = pre +:+ needle +:+ post.

(** The specification's reading of the Accept check: the header is there, and
    among its comma-separated elements, trimmed and lowercased, one contains
    the JSON marker and one contains the event-stream marker. *)
Definition accepts_json_and_sse (accept : option string) : Prop :=
  exists h, accept = Some h /\
    let elements := map (fun t => PyStr.lower (PyStr.strip t)) (PyStr.split "," h) in
    (exists t, In t elements /\ is_substring "application/json" t) /\
    (exists t, In t elements /\ is_substring "text/event-stream" t).

(** A reply is SSE-framed when it streams chunks as [text/event-stream]. *)
Definition is_sse_framed (r : Response) : Prop :=
  media_type r = Some "text/event-stream" /\
  exists chunks raised, content r = Streaming chunks raised.

(** A session id as [handle_initialize] makes them: 32 characters, each a
    lowercase hexadecimal digit. *)
Definition is_session_id (s : string) : Prop :=
  String.length s = 32%nat /\
  forallb Uuid.is_hex (list_ascii_of_string s) = true.

(** The [protocolVersion] entry of a response's result. *)
Definition protocolVersion_of (r : MCPResponse) : option json :=
  match result r with
  | Some (JObj d) => PyDict.get "protocolVersion" d
  | _ => None
  end.

Section Vocabulary.
Context `{C : Collaborators}.

(** The reply that carries a JSON-RPC error as a plain JSON body. *)
Definition json_error_reply (status : Z) (msg : string) : Response :=
  {| status_code := status;
     content := Content (model_dump_json false
                           (error_response (JStr "server-error") (-32600) msg));
     media_type := Some "application/json";
     headers := [] |}.

(** Every session sits under its own id, and the ids are session ids. *)
Definition store_ok (self : MCPServer) : Prop :=
  forall k s, sessions self !! k = Some s ->
    session_id s = k /\ is_session_id k.

(** The server as [__init__] made it, up to its sessions. *)
Definition server_ok (self : MCPServer) : Prop :=
  protocol_version self = "2024-11-05" /\
  tools self = _register_tools /\
  store_ok self.

(** The session under [sid] is ready for operation. *)
Definition ready (self : MCPServer) (sid : string) : Prop :=
  exists s, sessions self !! sid = Some s /\ ready_for_operation s = true.

(** One request as the endpoint receives it. *)
Record Call : Type := mkCall {
  call_env : Env;
  call_request : MCPRequest;
  call_accept : option string;
  call_session_id : option string
}.

Definition handle (c : Call) (self : MCPServer) (us : US) : Handled :=
  handle_mcp_request (call_env c) (call_request c) (call_accept c)
    (call_session_id c) self us.

(** The server and the user service after a sequence of requests. *)
Fixpoint run (calls : list Call) (self : MCPServer) (us : US) : MCPServer * US :=
  match calls with
  | [] => (self, us)
  | c :: rest =>
      let h := handle c self us in
      run rest (server h) (user_service h)
  end.

(** The reply to [notifications/initialized]: 202, no body, the session id
    in the header. *)
Definition accepted_reply (sid : string) : Response :=
  {| status_code := 202;
     content := NoContent;
     media_type := None;
     headers := [(MCP_SESSION_ID_HEADER, Some sid)] |}.

(** The seven ways through [handle_mcp_request], each with the condition
    that selects it and what it leaves behind. *)
Inductive branch (env : Env) (request : MCPRequest)
    (accept mcp_session_id : option string) (self : MCPServer) (us : US)
    : Handled -> Prop :=
| NotAcceptable :
    _validate_accept_header accept = false ->
    branch env request accept mcp_session_id self us
      (mkHandled
         (json_error_reply 406
            "Client must accept both application/json and text/event-stream")
         [] self us)
| Initialize :
    _validate_accept_header accept = true ->
    method request = "initialize" ->
    let sid := Uuid.hex32 (uuid4 env) in
    branch env request accept mcp_session_id self us
      (mkHandled
         (fst (StreamingResponse
                 [Object (Model (fst (fst (handle_initialize env request self))))]
                 (Some sid) us))
         [(MCP_SESSION_ID_HEADER, sid)]
         (with_sessions
            (<[sid := MCPSession_init (loop_time env) sid]> (sessions self)) self)
         us)
| NoSessionHeader :
    _validate_accept_header accept = true ->
    method request <> "initialize" ->
    option_truthy mcp_session_id = false ->
    branch env request accept mcp_session_id self us
      (mkHandled (json_error_reply 400 "Missing session ID") [] self us)
| UnknownSession (sid : string) :
    _validate_accept_header accept = true ->
    method request <> "initialize" ->
    mcp_session_id = Some sid -> sid <> EmptyString ->
    sessions self !! sid = None ->
    branch env request accept mcp_session_id self us
      (mkHandled
         {| status_code := 400;
            content := Content "No valid session ID provided";
            media_type := None;
            headers := [] |} [] self us)
| Initialized (sid : string) (s : MCPSession) :
    _validate_accept_header accept = true ->
    method request = "notifications/initialized" ->
    mcp_session_id = Some sid -> sid <> EmptyString ->
    sessions self !! sid = Some s ->
    let s' := set_ready_for_operation true (set_last_activity (loop_time env) s) in
    branch env request accept mcp_session_id self us
      (mkHandled
         {| status_code := 202;
            content := NoContent;
            media_type := None;
            headers := [(MCP_SESSION_ID_HEADER, Some (session_id s))] |}
         [] (with_sessions (<[sid := s']> (sessions self)) self) us)
| NotReady (sid : string) (s : MCPSession) :
    _validate_accept_header accept = true ->
    method request <> "initialize" ->
    method request <> "notifications/initialized" ->
    mcp_session_id = Some sid -> sid <> EmptyString ->
    sessions self !! sid = Some s ->
    ready_for_operation s = false ->
    branch env request accept mcp_session_id self us
      (mkHandled (json_error_reply 400 "Missing session ID") []
         (with_sessions
            (<[sid := set_last_activity (loop_time env) s]> (sessions self)) self)
         us)
| Operation (sid : string) (s : MCPSession) :
    _validate_accept_header accept = true ->
    method request <> "initialize" ->
    method request <> "notifications/initialized" ->
    mcp_session_id = Some sid -> sid <> EmptyString ->
    sessions self !! sid = Some s ->
    ready_for_operation s = true ->
    let self' :=
      with_sessions
        (<[sid := set_last_activity (loop_time env) s]> (sessions self)) self in
    let mcp_response :=
      if String.eqb (method request) "tools/list" then
        Object (Model (handle_tools_list self' request))
      else if String.eqb (method request) "tools/call" then
        tools_call_coroutine self' request
      else
        Object (Model (error_response (req_id request) (-32602)
                         ("Method '" +:+ method request +:+ "' not found"))) in
    branch env request accept mcp_session_id self us
      (mkHandled (fst (StreamingResponse [mcp_response] (Some sid) us)) [] self'
         (snd (StreamingResponse [mcp_response] (Some sid) us))).
End Vocabulary.

(** ** A test double for the collaborators *)

Module Fixture.

Definition QUOTE : string := String (ascii_of_nat 34) EmptyString.

(** A compact rendering of a JSON value; strings are quoted as they are. *)
Fixpoint render (j : json) : string :=
  match j with
  | JNull => "null"
  | JBool true => "true"
  | JBool false => "false"
  | JNum z => DecimalString.NilZero.string_of_int (Z.to_int z)
  | JStr s => QUOTE +:+ s +:+ QUOTE
  | JArr l =>
      "[" +:+ (fix items (l : list json) : string :=
                 match l with
                 | [] => EmptyString
                 | x :: r =>
                     render x +:+ match r with [] => EmptyString | _ => "," +:+ items r end
                 end) l +:+ "]"
  | JObj l =>
      "{" +:+ (fix entries (l : list (string * json)) : string :=
                 match l with
                 | [] => EmptyString
                 | (k, v) :: r =>
                     QUOTE +:+ k +:+ QUOTE +:+ ":" +:+ render v
                     +:+ match r with [] => EmptyString | _ => "," +:+ entries r end
                 end) l +:+ "}"
  end.

Definition response_json (exclude_none : bool) (r : MCPResponse) : json :=
  let keep (kv : string * json) :=
    match snd kv with JNull => negb exclude_none | _ => true end in
  JObj (filter keep
    [("jsonrpc", JStr "2.0");
     ("id", resp_id r);
     ("result", match result r with Some j => j | None => JNull end);
     ("error", match error r with
               | Some e => JObj [("code", JNum (code e)); ("message", JStr (message e))]
               | None => JNull
               end)]).

(** A user service that records the calls made on it. *)
Definition record_call (label : string) (outcome : executed)
    (arguments : json) (log : list (string * json)) : executed * list (string * json) :=
  (outcome, (log ++ [(label, arguments)])%list).

#[export] Instance collaborators : Collaborators := {|
  US := list (string * json);
  get_user := record_call "get_user" (Returns "user 1");
  search_users := record_call "search_users" (Returns "no users");
  add_user := record_call "add_user" (Raises "field required");
  delete_user := record_call "delete_user" (Returns "deleted");
  UserCreate_model_json_schema := JObj [("type", JStr "object")];
  UpdateUserTool :=
    mkTool "update_user" "Updates user" (JObj [("type", JStr "object")])
      (record_call "update_user" (Raises "user service is down"));
  model_dump_json := fun exclude_none r => render (response_json exclude_none r);
  dumps := render
|}.

Definition accept : option string := Some "application/json, text/event-stream".

Definition env : Env :=
  {| uuid4 := 24197857161011715162171839636988778104%N; loop_time := 7 |}.

Definition sid : string := "12345678123456781234567812345678".

Definition call (m : string) (p : option (list (string * json)))
    (session : option string) : Call :=
  mkCall env (mkRequest (JNum 1) m p) accept session.

(** The server at startup and a user service that has seen no call. *)
Definition fresh : MCPServer := MCPServer_init.
Definition untouched : US := [].

(** The server after one [initialize]. *)
Definition initialized : MCPServer :=
  fst (run [call "initialize" None None] fresh untouched).

(** The server after [initialize] and [notifications/initialized]. *)
Definition operating : MCPServer :=
  fst (run [call "initialize" None None;
            call "notifications/initialized" None (Some sid)] fresh untouched).

End Fixture.

(* Terms that name no collaborators of their own are read over the test
   double; a statement with collaborators [C] in scope keeps using [C]. *)
#[local] Existing Instance Fixture.collaborators.

(** ** The [try] blocks of the tools *)

(** What the tools reach outside the sources: the user client (each call
    returns text or raises; the state of the user service is [Service]), the
    [UserCreate] model with its validation ([inl] is [str()] of the exception
    raised), [UpdateUserTool], and what the Python runtime answers where the
    model leaves it open: [int(x)] for an [x] that is neither a number nor a
    bool, the message of the [TypeError] of subscripting an [x] that is no
    dict, and that of unpacking as keyword arguments an [x] that is no
    dict. *)
Class UserClient : Type := {
  Service : Type;
  UserCreate : Type;
  client_get_user : json -> Service -> executed * Service;
  client_search_users : list (string * json) -> Service -> executed * Service;
  client_add_user : UserCreate -> Service -> executed * Service;
  client_delete_user : Z -> Service -> executed * Service;
  UserCreate_model_validate : json -> string + UserCreate;
  UserCreate_schema : json;
  update_user_tool : Tool Service;
  int_of_other : json -> string + Z;
  subscript_error : json -> string;
  unpack_error : json -> string;
  response_dump : bool -> MCPResponse -> string;
  json_dumps : json -> string
}.

Section ToolBodies.
Context `{U : UserClient}.

(** [arguments] subscripted with the key id: the value, or [str()] of the
    exception raised; a dict without the key raises [KeyError('id')], whose
    [str()] is the key in single quotes. *)
Definition subscript_id (arguments : json) : string + json :=
  match arguments with
  | JObj d =>
      match PyDict.get "id" d with
      | Some v => inr v
      | None => inl "'id'"
      end
  | _ => inl (subscript_error arguments)
  end.

(** [int(x)] for a JSON value. *)
Definition py_int (x : json) : string + Z :=
  match x with
  | JNum z => inr z
  | JBool true => inr 1
  | JBool false => inr 0
  | _ => int_of_other x
  end.

(** The [try] block of [GetUserByIdTool.execute]. *)
Definition get_user_try (arguments : json) (us : Service) : executed * Service :=
  match subscript_id arguments with
  | inl msg => (Raises msg, us)
  | inr user_id => client_get_user user_id us
  end.

(** The [try] block of [DeleteUserTool.execute]. *)
Definition delete_user_try (arguments : json) (us : Service) : executed * Service :=
  match subscript_id arguments with
  | inl msg => (Raises msg, us)
  | inr v =>
      match py_int v with
      | inl msg => (Raises msg, us)
      | inr user_id => client_delete_user user_id us
      end
  end.

(** The [try] block of [CreateUserTool.execute]. *)
Definition add_user_try (arguments : json) (us : Service) : executed * Service :=
  match UserCreate_model_validate arguments with
  | inl msg => (Raises msg, us)
  | inr new_user => client_add_user new_user us
  end.

(** The [try] block of [SearchUsersTool.execute]. *)
Definition search_users_try (arguments : json) (us : Service) : executed * Service :=
  match arguments with
  | JObj d => client_search_users d us
  | _ => (Raises (unpack_error arguments), us)
  end.

(** The collaborators of the server, with the tools' [try] blocks as the
    sources have them. *)
Definition tool_collaborators : Collaborators :=
  {| US := Service;
     get_user := get_user_try;
     search_users := search_users_try;
     add_user := add_user_try;
     delete_user := delete_user_try;
     UserCreate_model_json_schema := UserCreate_schema;
     UpdateUserTool := update_user_tool;
     model_dump_json := response_dump;
     dumps := json_dumps |}.

End ToolBodies.

(** A user client for the examples: one user with id 1, a log of the calls. *)
Module ClientFixture.

Definition log_call (label : string) (argument : json) (outcome : executed)
    (log : list (string * json)) : executed * list (string * json) :=
  (outcome, (log ++ [(label, argument)])%list).

#[export] Instance client : UserClient := {|
  Service := list (string * json);
  UserCreate := list (string * json);
  client_get_user := fun user_id => log_call "get_user" user_id (Returns "user 1");
  client_search_users := fun d => log_call "search_users" (JObj d) (Returns "no users");
  client_add_user := fun u => log_call "add_user" (JObj u) (Returns "created");
  client_delete_user :=
    fun user_id =>
      log_call "delete_user" (JNum user_id)
        (if (user_id =? 1)%Z then Returns "deleted" else Raises "404");
  UserCreate_model_validate :=
    fun x => match x with
             | JObj ((k, v) :: d) => inr ((k, v) :: d)
             | _ => inl "Field required"
             end;
  UserCreate_schema := JObj [("type", JStr "object")];
  update_user_tool :=
    mkTool "update_user" "Updates user" (JObj [("type", JStr "object")])
      (fun x => log_call "update_user" x (Returns "updated"));
  int_of_other := fun _ => inl "invalid literal for int()";
  subscript_error := fun _ => "not subscriptable";
  unpack_error := fun _ => "argument after ** must be a mapping";
  response_dump := fun exclude_none r => Fixture.render (Fixture.response_json exclude_none r);
  json_dumps := Fixture.render
|}.

Definition server : MCPServer (C := tool_collaborators) :=
  MCPServer_init (C := tool_collaborators).

Definition call_tool (tool : string) (arguments : option json) : MCPRequest :=
  mkRequest (JNum 1) "tools/call"
    (Some (("name", JStr tool)
           :: match arguments with Some a => [("arguments", a)] | None => [] end)).

End ClientFixture.

(** ** The client (agent/clients/custom_mcp_client.py) *)

(** The parts of the client that work on what a request brought back.  A
    [str] that comes out of [bytes.decode] is the list of its code points. *)
Module Client.

Local Open Scope N_scope.

(** The exceptions these parts raise. *)
Inductive client_exn : Type :=
| RuntimeError (msg : string)
| UnicodeDecodeError
| JSONDecodeError (msg : string)
| AttributeError
| TypeError
| KeyError
| IndexError.

(** A string literal as a [str]. *)
Definition lit (s : string) : list N := map N_of_ascii (list_ascii_of_string s).

(** A continuation byte of UTF-8. *)
Definition continuation (b : N) : bool := (128 <=? b) && (b <=? 191).

(** [bytes.decode("utf-8")], strict: the code points, or [None] for
    [UnicodeDecodeError] (a stray or missing continuation byte, an overlong
    form, a surrogate, a value above U+10FFFF). *)
Fixpoint decode (bs : list N) : option (list N) :=
  match bs with
  | [] => Some []
  | b0 :: r0 =>
      if b0 <? 128 then
        match decode r0 with Some cps => Some (b0 :: cps) | None => None end
      else if (194 <=? b0) && (b0 <=? 223) then
        match r0 with
        | b1 :: r1 =>
            if continuation b1 then
              match decode r1 with
              | Some cps => Some ((b0 - 192) * 64 + (b1 - 128) :: cps)
              | None => None
              end
            else None
        | [] => None
        end
      else if (224 <=? b0) && (b0 <=? 239) then
        match r0 with
        | b1 :: b2 :: r2 =>
            if ((if b0 =? 224 then 160 else 128) <=? b1)
               && (b1 <=? (if b0 =? 237 then 159 else 191))
               && continuation b2 then
              match decode r2 with
              | Some cps =>
                  Some ((b0 - 224) * 4096 + (b1 - 128) * 64 + (b2 - 128) :: cps)
              | None => None
              end
            else None
        | _ => None
        end
      else if (240 <=? b0) && (b0 <=? 244) then
        match r0 with
        | b1 :: b2 :: b3 :: r3 =>
            if ((if b0 =? 240 then 144 else 128) <=? b1)
               && (b1 <=? (if b0 =? 244 then 143 else 191))
               && continuation b2 && continuation b3 then
              match decode r3 with
              | Some cps =>
                  Some ((b0 - 240) * 262144 + (b1 - 128) * 4096
                        + (b2 - 128) * 64 + (b3 - 128) :: cps)
              | None => None
              end
            else None
        | _ => None
        end
      else None
  end.

(** [str.isspace] for one code point. *)
Definition isspace (cp : N) : bool :=
  (9 <=? cp) && (cp <=? 13) || (28 <=? cp) && (cp <=? 32)
  || (cp =? 133) || (cp =? 160) || (cp =? 5760)
  || (8192 <=? cp) && (cp <=? 8202)
  || (cp =? 8232) || (cp =? 8233) || (cp =? 8239) || (cp =? 8287)
  || (cp =? 12288).

Fixpoint lstrip (s : list N) : list N :=
  match s with
  | [] => []
  | c :: r => if isspace c then lstrip r else s
  end.

Fixpoint rstrip (s : list N) : list N :=
  match s with
  | [] => []
  | c :: r =>
      match rstrip r with
      | [] => if isspace c then [] else [c]
      | r' => c :: r'
      end
  end.

(** [s.strip()] *)
Definition strip (s : list N) : list N := rstrip (lstrip s).

(** [s.startswith(p)] *)
Fixpoint startswith (p s : list N) : bool :=
  match p, s with
  | [], _ => true
  | a :: p', b :: s' => (a =? b) && startswith p' s'
  | _ :: _, [] => false
  end.

(** The lines that iterating over the stream reader gives for a body: each
    ends with its line feed, but a last line that has none. *)
Fixpoint lines_of (body : list byte) : list (list byte) :=
  match body with
  | [] => []
  | b :: r =>
      if Byte.to_N b =? 10 then [b] :: lines_of r
      else match lines_of r with
           | [] => [[b]]
           | l :: ls => (b :: l) :: ls
           end
  end.

Section Parsing.

(** [json.loads]: the value, or the message of the [JSONDecodeError]. *)
Variable loads : list N -> string + json.

(** [_parse_sse_response_streaming], over the lines the reader yields. *)
Fixpoint _parse_sse_response_streaming (lines : list (list byte)) : client_exn + json :=
  match lines with
  | [] => inl (RuntimeError "No valid data found in SSE response")
  | line :: rest =>
      match decode (map Byte.to_N line) with
      | None => inl UnicodeDecodeError
      | Some decoded =>
          let line_str := strip decoded in
          if match line_str with [] => true | _ => false end
             || startswith (lit ":") line_str
          then _parse_sse_response_streaming rest
          else if startswith (lit "data: ") line_str then
            let data_part := skipn 6 line_str in
            if bool_decide (data_part <> lit "[DONE]") then
              match loads data_part with
              | inl msg => inl (JSONDecodeError msg)
              | inr data => inr data
              end
            else _parse_sse_response_streaming rest
          else _parse_sse_response_streaming rest
      end
  end.

End Parsing.

(** [x.get(k, default)] for an [x] of any JSON type: only a dict has [get]. *)
Definition get_or (k : string) (default : json) (x : json) : client_exn + json :=
  match x with
  | JObj d => inr (get_default k default d)
  | _ => inl AttributeError
  end.

(** The elements a [for] loop takes from a JSON value: those of a list, the
    keys of a dict, the characters of a string; the others are not
    iterable. *)
Definition iterate (x : json) : client_exn + list json :=
  match x with
  | JArr l => inr l
  | JObj d => inr (map (fun kv => JStr (fst kv)) d)
  | JStr s => inr (map (fun c => JStr (String c EmptyString)) (list_ascii_of_string s))
  | _ => inl TypeError
  end.

(** One element of the list comprehension of [get_tools]. *)
Definition function_of (tool : json) : client_exn + json :=
  match tool with
  | JObj d =>
      inr (JObj [("type", JStr "function");
                 ("function",
                   JObj [("name", get_json "name" d);
                         ("description", get_default "description" (JStr EmptyString) d);
                         ("parameters", get_default "inputSchema" (JObj []) d)])])
  | _ => inl AttributeError
  end.

(** A list comprehension whose element expression may raise. *)
Fixpoint comprehension (f : json -> client_exn + json) (l : list json)
    : client_exn + list json :=
  match l with
  | [] => inr []
  | x :: r =>
      match f x with
      | inl e => inl e
      | inr y =>
          match comprehension f r with
          | inl e => inl e
          | inr ys => inr (y :: ys)
          end
      end
  end.

(** [get_tools], from the [response] that [_send_request] returned. *)
Definition get_tools (response : list (string * json)) : client_exn + list json :=
  match get_or "tools" (JArr []) (get_default "result" (JObj []) response) with
  | inl e => inl e
  | inr tools =>
      match iterate tools with
      | inl e => inl e
      | inr l => comprehension function_of l
      end
  end.

(** [content[0]]: the first element of a list, the first character of a
    string; the key 0 is in no dict that JSON gives, and the other values
    cannot be subscripted. *)
Definition first_item (content : json) : client_exn + json :=
  match content with
  | JArr (x :: _) => inr x
  | JArr [] => inl IndexError
  | JStr (String c _) => inr (JStr (String c EmptyString))
  | JStr EmptyString => inl IndexError
  | JObj _ => inl KeyError
  | _ => inl TypeError
  end.

(** [call_tool], from the [response] that [_send_request] returned. *)
Definition call_tool (response : list (string * json)) : client_exn + json :=
  match get_or "content" (JArr []) (get_default "result" (JObj []) response) with
  | inl e => inl e
  | inr content =>
      if truthy content then
        match first_item content with
        | inl e => inl e
        | inr item =>
            if truthy item then get_or "text" (JStr EmptyString) item
            else inr (JStr "Unexpected error occurred!")
        end
      else inr (JStr "Unexpected error occurred!")
  end.

End Client.

(** * Theorems *)

Example accept_both :
  _validate_accept_header (Some "Application/JSON , text/event-stream;q=0.9") = true.
Proof. reflexivity. Qed.

Example accept_json_only :
  _validate_accept_header (Some "application/json") = false.
Proof. reflexivity. Qed.

Example accept_star :
  _validate_accept_header (Some "*/*") = false.
Proof. reflexivity. Qed.

Example split_keeps_empty_elements :
  PyStr.split "," "a,,b," = ["a"; EmptyString; "b"; EmptyString].
Proof. reflexivity. Qed.

Example strip_and_lower :
  PyStr.lower (PyStr.strip "  Text/Event-Stream ") = "text/event-stream".
Proof. reflexivity. Qed.

Example uuid_str_example :
  Uuid.str 24197857161011715162171839636988778104%N
  = "12345678-1234-5678-1234-567812345678".
Proof. reflexivity. Qed.

(** ** Strings *)

Section StringFacts.

Lemma append_empty_r (s : string) : s +:+ EmptyString = s.
Proof. induction s as [|c s IH]; simpl; [reflexivity | now rewrite IH]. Qed.

Lemma append_assoc (a b c : string) : (a +:+ b) +:+ c = a +:+ (b +:+ c).
Proof. induction a as [|x a IH]; simpl; [reflexivity | now rewrite IH]. Qed.

Lemma append_eq_empty (a b : string) :
  a +:+ b = EmptyString -> a = EmptyString /\ b = EmptyString.
Proof. destruct a; simpl; [auto | discriminate]. Qed.

Lemma startswith_spec (p s : string) :
  PyStr.startswith p s = true <-> exists post, s = p +:+ post.
Proof.
  revert s. induction p as [|a p IH]; intros s; simpl.
  - split; [intros _; now exists s | reflexivity].
  - destruct s as [|b s].
    + split; [discriminate | intros [post H]; discriminate].
    + rewrite andb_true_iff, Ascii.eqb_eq, IH. split.
      * intros [-> [post ->]]. now exists post.
      * intros [post H]. injection H as -> ->. split; [reflexivity | now exists post].
Qed.

Lemma contains_spec (needle hay : string) :
  PyStr.contains needle hay = true <-> is_substring needle hay.
Proof.
  unfold is_substring. induction hay as [|c hay IH].
  - cbn [PyStr.contains]. rewrite orb_false_r, startswith_spec. split.
    + intros [post H]. now exists EmptyString, post.
    + intros (pre & post & H). symmetry in H.
      apply append_eq_empty in H as [-> H]. exists post. now rewrite H.
  - cbn [PyStr.contains]. rewrite orb_true_iff, startswith_spec, IH. split.
    + intros [[post H] | (pre & post & H)].
      * now exists EmptyString, post.
      * exists (String c pre), post. simpl. now rewrite H.
    + intros (pre & post & H). destruct pre as [|c' pre]; simpl in H.
      * left. now exists post.
      * right. injection H as _ H. now exists pre, post.
Qed.

Lemma remove_char_append (c : ascii) (a b : string) :
  PyStr.remove_char c (a +:+ b) = PyStr.remove_char c a +:+ PyStr.remove_char c b.
Proof.
  induction a as [|x a IH]; simpl; [reflexivity |].
  destruct (Ascii.eqb x c); simpl; now rewrite IH.
Qed.

Lemma length_append (a b : string) :
  String.length (a +:+ b) = (String.length a + String.length b)%nat.
Proof. induction a as [|x a IH]; simpl; [reflexivity | now rewrite IH]. Qed.

Lemma encode_append (a b : string) :
  PyStr.encode (a +:+ b) = (PyStr.encode a ++ PyStr.encode b)%list.
Proof.
  unfold PyStr.encode, list_byte_of_string.
  induction a as [|x a IH]; simpl; [reflexivity | now rewrite IH].
Qed.

End StringFacts.

(** ** Session ids are 32 hexadecimal digits *)

Module UuidFacts.
Import Uuid.

Lemma hex_digit_is_hex (n : N) : is_hex (hex_digit n) = true.
Proof.
  destruct n as [|p]; [reflexivity |].
  do 5 (try destruct p as [p|p|]; try reflexivity).
Qed.

Lemma hex_digit_not_hyphen (n : N) : Ascii.eqb (hex_digit n) "-" = false.
Proof.
  destruct n as [|p]; [reflexivity |].
  do 5 (try destruct p as [p|p|]; try reflexivity).
Qed.

Lemma digits_length (u : N) (lo count : nat) :
  String.length (digits u lo count) = count.
Proof. induction count as [|k IH]; simpl; [reflexivity | now rewrite IH]. Qed.

Lemma digits_is_hex (u : N) (lo count : nat) :
  forallb is_hex (list_ascii_of_string (digits u lo count)) = true.
Proof.
  induction count as [|k IH]; simpl; [reflexivity |].
  unfold nibble at 1. now rewrite hex_digit_is_hex, IH.
Qed.

Lemma digits_no_hyphen (u : N) (lo count : nat) :
  PyStr.remove_char "-" (digits u lo count) = digits u lo count.
Proof.
  induction count as [|k IH]; simpl; [reflexivity |].
  unfold nibble at 1. now rewrite hex_digit_not_hyphen, IH.
Qed.

Lemma digits_split (u : N) (lo a b : nat) :
  digits u lo (a + b) = digits u (lo + b) a +:+ digits u lo b.
Proof.
  induction a as [|a IH]; simpl; [reflexivity |].
  rewrite IH. f_equal. f_equal. lia.
Qed.

(** Taking the hyphens out of [str(u)] leaves the 32 digits. *)
Lemma str_without_hyphens (u : N) :
  PyStr.remove_char "-" (str u) = hex32 u.
Proof.
  unfold str, hex32.
  rewrite !remove_char_append, !digits_no_hyphen. cbn [PyStr.remove_char Ascii.eqb].
  change (digits u 0 32) with (digits u 0 (8 + (4 + (4 + (4 + 12))))).
  rewrite !digits_split. simpl Nat.add. reflexivity.
Qed.

Lemma hex_value_digit (n : N) : (n < 16)%N -> hex_value (hex_digit n) = n.
Proof.
  intros H. destruct n as [|p]; [reflexivity |].
  do 5 (try destruct p as [p|p|]); try reflexivity; lia.
Qed.

Lemma land_15_lt (x : N) : (N.land x 15 < 16)%N.
Proof.
  change 15%N with (N.ones 4). rewrite N.land_ones. now apply N.mod_lt.
Qed.

Lemma digits_inj (u v : N) (lo count : nat) :
  digits u lo count = digits v lo count ->
  forall i, (i < count)%nat ->
    N.land (N.shiftr u (4 * N.of_nat (lo + i))) 15
    = N.land (N.shiftr v (4 * N.of_nat (lo + i))) 15.
Proof.
  induction count as [|k IH]; intros H i Hi; [lia |].
  simpl in H. injection H as Hn Hrest.
  destruct (Nat.eq_dec i k) as [-> | Hne].
  - unfold nibble in Hn. apply (f_equal hex_value) in Hn.
    now rewrite !hex_value_digit in Hn by apply land_15_lt.
  - apply IH; [assumption | lia].
Qed.

(** The 32 digits determine the 128 bits: two UUIDs with the same rendering
    are the same 128-bit value. *)
Lemma hex32_inj (u v : N) :
  hex32 u = hex32 v -> (u mod 2 ^ 128 = v mod 2 ^ 128)%N.
Proof.
  intros H. apply N.bits_inj. intros n.
  destruct (N.lt_ge_cases n 128) as [Hlt | Hge].
  - rewrite !N.mod_pow2_bits_low by assumption.
    pose proof (digits_inj u v 0 32 H (N.to_nat (n / 4))) as Hd.
    assert (Hi : (N.to_nat (n / 4) < 32)%nat).
    { assert (n / 4 < 32)%N by (apply N.Div0.div_lt_upper_bound; lia). lia. }
    specialize (Hd Hi). cbn [Nat.add] in Hd. rewrite N2Nat.id in Hd.
    apply (f_equal (fun x => N.testbit x (n mod 4))) in Hd.
    change 15%N with (N.ones 4) in Hd. rewrite !N.land_ones in Hd.
    assert (Hj : (n mod 4 < 4)%N) by now apply N.mod_lt.
    rewrite !N.mod_pow2_bits_low, !N.shiftr_spec' in Hd by assumption.
    replace (n mod 4 + 4 * (n / 4))%N with n in Hd; [assumption |].
    rewrite (N.div_mod n 4) at 1 by discriminate. lia.
  - now rewrite !N.mod_pow2_bits_high by assumption.
Qed.

Lemma hex32_is_session_id (u : N) : is_session_id (hex32 u).
Proof. split; [apply digits_length | apply digits_is_hex]. Qed.

Lemma session_id_truthy (s : string) : is_session_id s -> PyStr.truthy s = true.
Proof. intros [H _]. destruct s; [discriminate | reflexivity]. Qed.

End UuidFacts.

(** ** The Accept header *)

Lemma accept_header_spec (accept : option string) :
  _validate_accept_header accept = true <-> accepts_json_and_sse accept.
Proof.
  unfold accepts_json_and_sse. destruct accept as [h|].
  - destruct h as [|c h].
    + split; [discriminate |].
      intros (h & [= <-] & (t & Hin & Hsub) & _). exfalso.
      destruct Hin as [<- | []].
      apply contains_spec in Hsub. discriminate Hsub.
    + unfold _validate_accept_header. cbn [PyStr.truthy negb].
      rewrite andb_true_iff, !existsb_exists. split.
      * intros [(t1 & Hin1 & H1) (t2 & Hin2 & H2)].
        exists (String c h). split; [reflexivity |]. cbn zeta. split.
        -- exists t1. split; [assumption | now apply contains_spec].
        -- exists t2. split; [assumption | now apply contains_spec].
      * intros (h' & [= <-] & (t1 & Hin1 & H1) & (t2 & Hin2 & H2)). split.
        -- exists t1. split; [assumption | now apply contains_spec].
        -- exists t2. split; [assumption | now apply contains_spec].
  - split; [discriminate | intros (h & H & _); discriminate].
Qed.

Lemma accept_header_rejected (accept : option string) :
  ~ accepts_json_and_sse accept -> _validate_accept_header accept = false.
Proof.
  intros H. destruct (_validate_accept_header accept) eqn:E; [| reflexivity].
  exfalso. apply H. now apply accept_header_spec.
Qed.

(** ** One request at the endpoint, branch by branch *)

Section Branches.
Context `{C : Collaborators}.
Variables (env : Env) (request : MCPRequest) (accept mcp_session_id : option string).
Variables (self : MCPServer) (us : US).

Lemma branch_not_acceptable :
  _validate_accept_header accept = false ->
  handle_mcp_request env request accept mcp_session_id self us
  = mkHandled
      (json_error_reply 406
         "Client must accept both application/json and text/event-stream")
      [] self us.
Proof. intros H. unfold handle_mcp_request. now rewrite H. Qed.

Lemma stream_of_object (o : object) (hdr : option string) :
  StreamingResponse [Object o] hdr us
  = ({| status_code := 200;
        content := Streaming [frame o; DONE] None;
        media_type := Some "text/event-stream";
        headers := [("Cache-Control", Some "no-cache");
                    ("Connection", Some "keep-alive");
                    (MCP_SESSION_ID_HEADER, hdr)] |}, us).
Proof. reflexivity. Qed.

Lemma branch_initialize :
  _validate_accept_header accept = true ->
  method request = "initialize" ->
  let sid := Uuid.hex32 (uuid4 env) in
  handle_mcp_request env request accept mcp_session_id self us
  = mkHandled
      (fst (StreamingResponse
              [Object (Model (fst (fst (handle_initialize env request self))))]
              (Some sid) us))
      [(MCP_SESSION_ID_HEADER, sid)]
      (with_sessions (<[sid := MCPSession_init (loop_time env) sid]> (sessions self)) self)
      us.
Proof.
  intros Ha Hm sid. unfold handle_mcp_request. rewrite Ha, Hm. cbn [negb String.eqb].
  unfold handle_initialize. rewrite UuidFacts.str_without_hyphens. fold sid.
  rewrite (UuidFacts.session_id_truthy sid (UuidFacts.hex32_is_session_id _)).
  rewrite !stream_of_object. reflexivity.
Qed.

Lemma branch_no_session_header :
  _validate_accept_header accept = true ->
  method request <> "initialize" ->
  option_truthy mcp_session_id = false ->
  handle_mcp_request env request accept mcp_session_id self us
  = mkHandled (json_error_reply 400 "Missing session ID") [] self us.
Proof.
  intros Ha Hm Hs. unfold handle_mcp_request. rewrite Ha, Hs.
  apply String.eqb_neq in Hm. now rewrite Hm.
Qed.

Lemma branch_unknown_session (sid : string) :
  _validate_accept_header accept = true ->
  method request <> "initialize" ->
  mcp_session_id = Some sid -> sid <> EmptyString ->
  sessions self !! sid = None ->
  handle_mcp_request env request accept mcp_session_id self us
  = mkHandled
      {| status_code := 400;
         content := Content "No valid session ID provided";
         media_type := None;
         headers := [] |} [] self us.
Proof.
  intros Ha Hm -> Hs Hl. unfold handle_mcp_request. rewrite Ha.
  apply String.eqb_neq in Hm. rewrite Hm. cbn [negb option_truthy].
  destruct sid as [|c sid]; [congruence |]. cbn [PyStr.truthy negb].
  unfold get_session. now rewrite Hl.
Qed.

Lemma branch_initialized (sid : string) (s : MCPSession) :
  _validate_accept_header accept = true ->
  method request = "notifications/initialized" ->
  mcp_session_id = Some sid -> sid <> EmptyString ->
  sessions self !! sid = Some s ->
  let s' := set_ready_for_operation true (set_last_activity (loop_time env) s) in
  handle_mcp_request env request accept mcp_session_id self us
  = mkHandled
      {| status_code := 202;
         content := NoContent;
         media_type := None;
         headers := [(MCP_SESSION_ID_HEADER, Some (session_id s))] |}
      [] (with_sessions (<[sid := s']> (sessions self)) self) us.
Proof.
  intros Ha Hm -> Hs Hl s'. unfold handle_mcp_request. rewrite Ha, Hm.
  cbn [negb String.eqb option_truthy].
  destruct sid as [|c sid]; [congruence |]. cbn [PyStr.truthy negb].
  unfold get_session. rewrite Hl. cbn [String.eqb Ascii.eqb Bool.eqb].
  cbn [with_sessions sessions protocol_version server_info tools].
  rewrite insert_insert_eq. reflexivity.
Qed.

Lemma branch_not_ready (sid : string) (s : MCPSession) :
  _validate_accept_header accept = true ->
  method request <> "initialize" ->
  method request <> "notifications/initialized" ->
  mcp_session_id = Some sid -> sid <> EmptyString ->
  sessions self !! sid = Some s ->
  ready_for_operation s = false ->
  handle_mcp_request env request accept mcp_session_id self us
  = mkHandled (json_error_reply 400 "Missing session ID") []
      (with_sessions (<[sid := set_last_activity (loop_time env) s]> (sessions self)) self)
      us.
Proof.
  intros Ha Hm Hn -> Hs Hl Hr. unfold handle_mcp_request. rewrite Ha.
  apply String.eqb_neq in Hm, Hn. rewrite Hm, Hn. cbn [negb option_truthy].
  destruct sid as [|c sid]; [congruence |]. cbn [PyStr.truthy negb].
  unfold get_session. rewrite Hl.
  cbn [set_last_activity ready_for_operation]. now rewrite Hr.
Qed.

Lemma branch_operation (sid : string) (s : MCPSession) :
  _validate_accept_header accept = true ->
  method request <> "initialize" ->
  method request <> "notifications/initialized" ->
  mcp_session_id = Some sid -> sid <> EmptyString ->
  sessions self !! sid = Some s ->
  ready_for_operation s = true ->
  let self' :=
    with_sessions (<[sid := set_last_activity (loop_time env) s]> (sessions self)) self in
  let mcp_response :=
    if String.eqb (method request) "tools/list" then
      Object (Model (handle_tools_list self' request))
    else if String.eqb (method request) "tools/call" then
      tools_call_coroutine self' request
    else
      Object (Model (error_response (req_id request) (-32602)
                       ("Method '" +:+ method request +:+ "' not found"))) in
  handle_mcp_request env request accept mcp_session_id self us
  = mkHandled (fst (StreamingResponse [mcp_response] (Some sid) us)) [] self'
      (snd (StreamingResponse [mcp_response] (Some sid) us)).
Proof.
  intros Ha Hm Hn -> Hs Hl Hr self' mcp_response. unfold handle_mcp_request. rewrite Ha.
  apply String.eqb_neq in Hm, Hn. rewrite Hm, Hn. cbn [negb option_truthy].
  destruct sid as [|c sid]; [congruence |]. cbn [PyStr.truthy negb].
  unfold get_session. rewrite Hl.
  cbn [set_last_activity ready_for_operation]. rewrite Hr. cbn [negb].
  fold self'. fold mcp_response.
  now destruct (StreamingResponse [mcp_response] (Some (String c sid)) us).
Qed.

End Branches.

Section View.
Context `{C : Collaborators}.

(** Every request goes through exactly one of the seven branches. *)
Lemma handle_branch (env : Env) (request : MCPRequest)
    (accept mcp_session_id : option string) (self : MCPServer) (us : US) :
  branch env request accept mcp_session_id self us
    (handle_mcp_request env request accept mcp_session_id self us).
Proof.
  destruct (_validate_accept_header accept) eqn:Ha.
  2: { rewrite branch_not_acceptable by assumption. now constructor. }
  destruct (String.eqb_spec (method request) "initialize") as [Hm | Hm].
  { rewrite branch_initialize by assumption. now constructor. }
  destruct (option_truthy mcp_session_id) eqn:Hs.
  2: { rewrite branch_no_session_header by assumption. now constructor. }
  destruct mcp_session_id as [sid|]; [| discriminate].
  assert (Hne : sid <> EmptyString) by (intros ->; discriminate).
  destruct (sessions self !! sid) as [s|] eqn:Hl.
  2: { rewrite (branch_unknown_session _ _ _ _ _ _ sid) by auto.
       now apply (UnknownSession _ _ _ _ _ _ sid). }
  destruct (String.eqb_spec (method request) "notifications/initialized") as [Hn | Hn].
  { rewrite (branch_initialized _ _ _ _ _ _ sid s) by auto.
    now apply (Initialized _ _ _ _ _ _ sid s). }
  destruct (ready_for_operation s) eqn:Hr.
  - rewrite (branch_operation _ _ _ _ _ _ sid s) by auto.
    now apply (Operation _ _ _ _ _ _ sid s).
  - rewrite (branch_not_ready _ _ _ _ _ _ sid s) by auto.
    now apply (NotReady _ _ _ _ _ _ sid s).
Qed.

End View.

(** ** What a request can do to the sessions *)

Section Sessions.
Context `{C : Collaborators}.

Lemma handle_keeps_config env request accept mcp_session_id self us :
  let h := handle_mcp_request env request accept mcp_session_id self us in
  protocol_version (server h) = protocol_version self /\
  tools (server h) = tools self.
Proof.
  cbv zeta. destruct (handle_branch env request accept mcp_session_id self us);
    split; reflexivity.
Qed.

Lemma touched_session_ok (self : MCPServer) (sid : string) (s s' : MCPSession) :
  store_ok self -> sessions self !! sid = Some s ->
  session_id s' = session_id s ->
  store_ok (with_sessions (<[sid := s']> (sessions self)) self).
Proof.
  intros Hok Hl Hid k x. cbn [sessions with_sessions].
  destruct (decide (sid = k)) as [<- | Hne].
  - rewrite lookup_insert_eq. intros [= <-].
    destruct (Hok _ _ Hl) as [H1 H2]. split; [congruence | assumption].
  - rewrite lookup_insert_ne by assumption. apply Hok.
Qed.

Lemma handle_keeps_store_ok env request accept mcp_session_id self us :
  store_ok self ->
  store_ok (server (handle_mcp_request env request accept mcp_session_id self us)).
Proof.
  intros Hok.
  destruct (handle_branch env request accept mcp_session_id self us);
    cbn [server]; try assumption.
  - intros k x. cbn [sessions with_sessions].
    destruct (decide (sid = k)) as [<- | Hne].
    + rewrite lookup_insert_eq. intros [= <-].
      split; [reflexivity | apply UuidFacts.hex32_is_session_id].
    + rewrite lookup_insert_ne by assumption. apply Hok.
  - eapply touched_session_ok; eauto.
  - eapply touched_session_ok; eauto.
  - eapply touched_session_ok; eauto.
Qed.

Lemma init_server_ok : server_ok MCPServer_init.
Proof.
  split; [reflexivity |]. split; [reflexivity |].
  intros k s H. cbn [sessions MCPServer_init] in H.
  rewrite lookup_empty in H. discriminate.
Qed.

Lemma handle_keeps_server_ok env request accept mcp_session_id self us :
  server_ok self ->
  server_ok (server (handle_mcp_request env request accept mcp_session_id self us)).
Proof.
  intros (Hv & Ht & Hs).
  destruct (handle_keeps_config env request accept mcp_session_id self us) as [Hv' Ht'].
  split; [congruence |]. split; [congruence | now apply handle_keeps_store_ok].
Qed.

Lemma run_keeps_server_ok (calls : list Call) (self : MCPServer) (us : US) :
  server_ok self -> server_ok (fst (run calls self us)).
Proof.
  revert self us. induction calls as [|c calls IH]; intros self us Hok; simpl.
  - assumption.
  - apply IH. now apply handle_keeps_server_ok.
Qed.

Lemma ready_insert (self : MCPServer) (sid k : string) (s' : MCPSession) :
  ready (with_sessions (<[sid := s']> (sessions self)) self) k <->
  (if decide (sid = k) then ready_for_operation s' = true else ready self k).
Proof.
  unfold ready. cbn [sessions with_sessions].
  destruct (decide (sid = k)) as [<- | Hne].
  - rewrite lookup_insert_eq. split.
    + now intros (s & [= <-] & H).
    + intros H. now exists s'.
  - now rewrite lookup_insert_ne by assumption.
Qed.

(** A request that is not [notifications/initialized] for [k] leaves [k] as
    ready as it was, unless it is the [initialize] that makes [k] anew. *)
Lemma ready_step env request accept mcp_session_id self us (k : string) :
  ready (server (handle_mcp_request env request accept mcp_session_id self us)) k ->
  ready self k \/
  (_validate_accept_header accept = true /\
   method request = "notifications/initialized" /\
   mcp_session_id = Some k /\ is_Some (sessions self !! k)).
Proof.
  destruct (handle_branch env request accept mcp_session_id self us);
    cbn [server]; try (now left).
  - intros Hrk. apply ready_insert in Hrk.
    destruct (decide (sid = k)); [discriminate | now left].
  - intros Hrk. apply ready_insert in Hrk.
    destruct (decide (sid = k)) as [<- | Hne]; [| now left].
    right. repeat split; try assumption. now exists s.
  - intros Hrk. apply ready_insert in Hrk.
    destruct (decide (sid = k)) as [<- | Hne]; [| now left].
    cbn [set_last_activity ready_for_operation] in Hrk. congruence.
  - intros Hrk. apply ready_insert in Hrk.
    destruct (decide (sid = k)) as [<- | Hne]; [| now left].
    left. now exists s.
Qed.

End Sessions.

(** ** The handshake *)

(** C1.  Right after the [initialize] request that creates it, a session is
    not ready for operation; and whenever a request leaves a session ready
    that was not ready before, the request is a [notifications/initialized]
    whose header carries the id of that very session. *)
Theorem ready_only_by_initialized `{C : Collaborators}
    (env : Env) (request : MCPRequest) (accept mcp_session_id : option string)
    (self : MCPServer) (us : US) :
  let h := handle_mcp_request env request accept mcp_session_id self us in
  (_validate_accept_header accept = true -> method request = "initialize" ->
   let sid := snd (fst (handle_initialize env request self)) in
   (exists s, sessions (server h) !! sid = Some s /\
              session_id s = sid /\ ready_for_operation s = false) /\
   ~ ready (server h) sid) /\
  (forall k, ready (server h) k -> ~ ready self k ->
   method request = "notifications/initialized" /\
   mcp_session_id = Some k /\ is_Some (sessions self !! k)).
Proof.
  intros h. split.
  - intros Ha Hm sid. subst h. rewrite branch_initialize by assumption.
    cbn [server sessions with_sessions].
    assert (Hsid : sid = Uuid.hex32 (uuid4 env)).
    { subst sid. unfold handle_initialize. cbn [fst snd].
      apply UuidFacts.str_without_hyphens. }
    rewrite Hsid, lookup_insert_eq. split.
    + eexists. split; [reflexivity |]. split; reflexivity.
    + intros (s & Hl & Hr). cbn [sessions with_sessions] in Hl.
      rewrite lookup_insert_eq in Hl. injection Hl as <-. discriminate Hr.
  - intros k Hk Hnot. subst h. apply ready_step in Hk.
    destruct Hk as [Hk | (_ & Hm & Hs & Hl)]; [contradiction | auto].
Qed.

Lemma ready_only_by_initialized_witness :
  let c := Fixture.call "notifications/initialized" None (Some Fixture.sid) in
  ready (server (handle c Fixture.initialized Fixture.untouched)) Fixture.sid /\
  ~ ready Fixture.initialized Fixture.sid /\
  method (call_request c) = "notifications/initialized" /\
  call_session_id c = Some Fixture.sid.
Proof.
  intros c.
  assert (H1 : ready (server (handle c Fixture.initialized Fixture.untouched)) Fixture.sid).
  { exists (mkSession Fixture.sid true 7 7). split; vm_compute; reflexivity. }
  assert (H2 : ~ ready Fixture.initialized Fixture.sid).
  { intros (s & Hl & Hr). vm_compute in Hl. injection Hl as <-. discriminate Hr. }
  split; [exact H1 |]. split; [exact H2 |].
  destruct (ready_only_by_initialized (call_env c) (call_request c) (call_accept c)
              (call_session_id c) Fixture.initialized Fixture.untouched) as [_ H].
  destruct (H Fixture.sid H1 H2) as (Hm & Hs & _). split; assumption.
Defined.

(** Over a whole run: a session that ends up ready was either ready at the
    start or named by some [notifications/initialized] of the run. *)
Lemma ready_needs_initialized `{C : Collaborators}
    (calls : list Call) (self : MCPServer) (us : US) (k : string) :
  ready (fst (run calls self us)) k ->
  ready self k \/
  exists c, In c calls /\
    method (call_request c) = "notifications/initialized" /\
    call_session_id c = Some k.
Proof.
  revert self us. induction calls as [|c calls IH]; intros self us; simpl.
  - now left.
  - intros H. apply IH in H. destruct H as [H | (c' & Hin & Hm & Hs)].
    + unfold handle in H. apply ready_step in H.
      destruct H as [H | (_ & Hm & Hs & _)]; [now left |].
      right. exists c. auto.
    + right. exists c'. auto.
Qed.

(** C7.  [handle_initialize] makes a session whose id is the 32 hexadecimal
    digits of the UUID drawn for it (digits that determine its 128 bits), not
    ready, with both times set to the clock's reading, and stores it under its
    id, the other sessions staying as they were; at the endpoint, the reply to
    an [initialize] request (one that passed the Accept check, as every
    request handled there has) carries that id in its [Mcp-Session-Id]
    header. *)
Theorem initialize_creates_session `{C : Collaborators}
    (env : Env) (request : MCPRequest) (accept mcp_session_id : option string)
    (self : MCPServer) (us : US) :
  let made := handle_initialize env request self in
  let sid := snd (fst made) in
  (sid = PyStr.remove_char "-" (Uuid.str (uuid4 env)) /\
   sid = Uuid.hex32 (uuid4 env) /\
   is_session_id sid /\
   sessions (snd made) !! sid
   = Some {| session_id := sid;
             ready_for_operation := false;
             created_at := loop_time env;
             last_activity := loop_time env |} /\
   (forall k, k <> sid -> sessions (snd made) !! k = sessions self !! k) /\
   (forall u, Uuid.hex32 u = sid -> (u mod 2 ^ 128 = uuid4 env mod 2 ^ 128)%N)) /\
  (_validate_accept_header accept = true ->
   method request = "initialize" ->
   let h := handle_mcp_request env request accept mcp_session_id self us in
   server h = snd made /\
   In (MCP_SESSION_ID_HEADER, Some sid) (headers (reply h)) /\
   status_code (reply h) = 200 /\
   is_sse_framed (reply h)).
Proof.
  intros made sid.
  assert (Hsid : sid = Uuid.hex32 (uuid4 env)).
  { subst sid made. unfold handle_initialize. cbn [fst snd].
    apply UuidFacts.str_without_hyphens. }
  assert (Hmade : snd made
                  = with_sessions
                      (<[Uuid.hex32 (uuid4 env)
                         := MCPSession_init (loop_time env) (Uuid.hex32 (uuid4 env))]>
                         (sessions self)) self).
  { subst made. unfold handle_initialize. cbn [snd].
    now rewrite UuidFacts.str_without_hyphens. }
  split.
  - split; [reflexivity |]. split; [assumption |].
    rewrite Hmade, Hsid. cbn [sessions with_sessions].
    split; [apply UuidFacts.hex32_is_session_id |].
    split; [apply lookup_insert_eq |].
    split; [intros k Hk; now rewrite lookup_insert_ne by congruence |].
    intros u Hu. now apply UuidFacts.hex32_inj.
  - intros Ha Hm h. subst h. rewrite branch_initialize by assumption.
    rewrite stream_of_object. cbn [server reply fst headers status_code].
    rewrite Hmade, Hsid.
    split; [reflexivity |]. split; [right; right; now left |].
    split; [reflexivity |]. split; [reflexivity | now eexists _, _].
Qed.

Lemma initialize_creates_session_witness :
  let h := handle (Fixture.call "initialize" None None) Fixture.fresh Fixture.untouched in
  sessions (server h) !! Fixture.sid = Some (mkSession Fixture.sid false 7 7) /\
  In (MCP_SESSION_ID_HEADER, Some Fixture.sid) (headers (reply h)).
Proof.
  intros h.
  destruct (initialize_creates_session Fixture.env
              (mkRequest (JNum 1) "initialize" None) Fixture.accept None
              Fixture.fresh Fixture.untouched)
    as ((_ & _ & _ & Hl & _ & _) & Hreply).
  destruct (Hreply eq_refl eq_refl) as (Hs & Hh & _).
  split; [| exact Hh].
  subst h. unfold handle. cbn [call_env call_request call_accept call_session_id Fixture.call].
  rewrite Hs. exact Hl.
Defined.

(** [notifications/initialized] for a stored session, on any server whose
    store is in order. *)
Lemma initialized_once `{C : Collaborators}
    (env : Env) (request : MCPRequest) (accept : option string)
    (self : MCPServer) (us : US) (sid : string) :
  store_ok self -> is_Some (sessions self !! sid) ->
  _validate_accept_header accept = true ->
  method request = "notifications/initialized" ->
  let h := handle_mcp_request env request accept (Some sid) self us in
  reply h = accepted_reply sid /\ user_service h = us /\
  is_Some (sessions (server h) !! sid) /\
  forall k, ready (server h) k <-> k = sid \/ ready self k.
Proof.
  intros Hok [s Hl] Ha Hm h. destruct (Hok _ _ Hl) as [Hid Hsid].
  assert (Hne : sid <> EmptyString).
  { intros ->. destruct Hsid as [Hlen _]. discriminate Hlen. }
  subst h. rewrite (branch_initialized _ _ _ _ _ _ sid s) by auto.
  cbn [reply user_service server]. rewrite Hid.
  split; [reflexivity |]. split; [reflexivity |]. split.
  - cbn [sessions with_sessions]. rewrite lookup_insert_eq. now eexists.
  - intros k. rewrite ready_insert.
    destruct (decide (sid = k)) as [<- | Hk].
    + cbn [set_ready_for_operation ready_for_operation]. split; auto.
    + split; [auto | intros [-> | H]; [contradiction | assumption]].
Qed.

(** C9.  On a server reached from startup by any requests, two
    [notifications/initialized] in a row for a stored session both get the 202
    reply without body and with the session id in the header; the session is
    ready after the first and after the second, and the second changes no
    session's readiness. *)
Theorem initialized_is_idempotent `{C : Collaborators}
    (calls : list Call) (us0 : US) (env1 env2 : Env) (request1 request2 : MCPRequest)
    (accept1 accept2 : option string) (sid : string) :
  let self := fst (run calls MCPServer_init us0) in
  let us := snd (run calls MCPServer_init us0) in
  is_Some (sessions self !! sid) ->
  _validate_accept_header accept1 = true ->
  _validate_accept_header accept2 = true ->
  method request1 = "notifications/initialized" ->
  method request2 = "notifications/initialized" ->
  let h1 := handle_mcp_request env1 request1 accept1 (Some sid) self us in
  let h2 := handle_mcp_request env2 request2 accept2 (Some sid)
              (server h1) (user_service h1) in
  reply h1 = accepted_reply sid /\ reply h2 = accepted_reply sid /\
  ready (server h1) sid /\ ready (server h2) sid /\
  (forall k, ready (server h2) k <-> ready (server h1) k) /\
  user_service h2 = us.
Proof.
  intros self us Hl Ha1 Ha2 Hm1 Hm2 h1 h2.
  assert (Hok : server_ok self) by apply run_keeps_server_ok, init_server_ok.
  destruct Hok as (_ & _ & Hok).
  destruct (initialized_once env1 request1 accept1 self us sid Hok Hl Ha1 Hm1)
    as (Hr1 & Hu1 & Hl1 & Hk1).
  fold h1 in Hr1, Hu1, Hl1, Hk1.
  assert (Hok1 : store_ok (server h1)) by now apply handle_keeps_store_ok.
  destruct (initialized_once env2 request2 accept2 (server h1) (user_service h1)
              sid Hok1 Hl1 Ha2 Hm2) as (Hr2 & Hu2 & _ & Hk2).
  fold h2 in Hr2, Hu2, Hk2.
  split; [assumption |]. split; [assumption |].
  split; [apply Hk1; now left |]. split; [apply Hk2; now left |].
  split; [| congruence].
  intros k. rewrite Hk2, Hk1. tauto.
Qed.

Lemma initialized_is_idempotent_witness :
  let c := Fixture.call "notifications/initialized" None (Some Fixture.sid) in
  let h1 := handle c Fixture.initialized Fixture.untouched in
  let h2 := handle c (server h1) (user_service h1) in
  reply h1 = accepted_reply Fixture.sid /\ reply h2 = accepted_reply Fixture.sid /\
  ready (server h1) Fixture.sid /\ ready (server h2) Fixture.sid.
Proof.
  intros c h1 h2.
  assert (Hl : is_Some (sessions Fixture.initialized !! Fixture.sid)).
  { exists (mkSession Fixture.sid false 7 7). vm_compute. reflexivity. }
  destruct (initialized_is_idempotent
              [Fixture.call "initialize" None None] Fixture.untouched
              Fixture.env Fixture.env (call_request c) (call_request c)
              Fixture.accept Fixture.accept Fixture.sid Hl eq_refl eq_refl eq_refl eq_refl)
    as (H1 & H2 & H3 & H4 & _).
  split; [exact H1 |]. split; [exact H2 |]. split; [exact H3 | exact H4].
Defined.

(** ** Before readiness *)

(** C5, as the code has it.  A request that passes the Accept check, is
    neither [initialize] nor [notifications/initialized], and names a stored
    session that is not ready, gets status 400 and the JSON-RPC error -32600
    "Missing session ID" as a plain JSON body, not as an SSE stream; no tool
    runs and the session stays not ready. *)
Theorem not_ready_is_rejected `{C : Collaborators}
    (env : Env) (request : MCPRequest) (accept : option string)
    (self : MCPServer) (us : US) (sid : string) (s : MCPSession) :
  _validate_accept_header accept = true ->
  method request <> "initialize" ->
  method request <> "notifications/initialized" ->
  sessions self !! sid = Some s ->
  ready_for_operation s = false ->
  let h := handle_mcp_request env request accept (Some sid) self us in
  reply h = json_error_reply 400 "Missing session ID" /\
  status_code (reply h) = 400 /\
  media_type (reply h) = Some "application/json" /\
  ~ is_sse_framed (reply h) /\
  user_service h = us /\
  ~ ready (server h) sid.
Proof.
  intros Ha Hm Hn Hl Hr h.
  assert (Hreply : reply h = json_error_reply 400 "Missing session ID" /\
                   user_service h = us /\ ~ ready (server h) sid).
  { subst h. destruct sid as [|c sid].
    - rewrite branch_no_session_header by auto. cbn [reply user_service server].
      split; [reflexivity |]. split; [reflexivity |].
      intros (s' & Hl' & Hr'). congruence.
    - rewrite (branch_not_ready _ _ _ _ _ _ (String c sid) s) by (auto; discriminate).
      cbn [reply user_service server].
      split; [reflexivity |]. split; [reflexivity |].
      intros H. apply ready_insert in H.
      destruct (decide (String c sid = String c sid)); [| contradiction].
      cbn [set_last_activity ready_for_operation] in H. congruence. }
  destruct Hreply as (Hq & Hu & Hk). rewrite Hq.
  split; [reflexivity |]. split; [reflexivity |]. split; [reflexivity |].
  split; [| now split].
  intros [Hmedia _]. discriminate Hmedia.
Qed.

Lemma not_ready_is_rejected_witness :
  let c := Fixture.call "tools/call" (Some [("name", JStr "get_user_by_id")])
             (Some Fixture.sid) in
  let h := handle c Fixture.initialized Fixture.untouched in
  status_code (reply h) = 400 /\ ~ is_sse_framed (reply h) /\
  user_service h = Fixture.untouched.
Proof.
  intros c h.
  assert (Hl : sessions Fixture.initialized !! Fixture.sid
               = Some (mkSession Fixture.sid false 7 7))
    by (vm_compute; reflexivity).
  destruct (not_ready_is_rejected (call_env c) (call_request c) (call_accept c)
              Fixture.initialized Fixture.untouched Fixture.sid _
              eq_refl ltac:(discriminate) ltac:(discriminate) Hl eq_refl)
    as (_ & H1 & _ & H2 & H3 & _).
  split; [exact H1 |]. split; [exact H2 | exact H3].
Defined.

(** C5, as the specification has it, fails: the reply to [tools/call] on a
    session that is not ready is not SSE-framed.  Its media type is
    [application/json] and its body is the serialized error itself. *)
Lemma not_ready_reply_is_not_sse :
  let c := Fixture.call "tools/call" (Some [("name", JStr "get_user_by_id")])
             (Some Fixture.sid) in
  let h := handle c Fixture.initialized Fixture.untouched in
  _validate_accept_header (call_accept c) = true /\
  sessions Fixture.initialized !! Fixture.sid
  = Some (mkSession Fixture.sid false 7 7) /\
  status_code (reply h) = 400 /\
  media_type (reply h) = Some "application/json" /\
  content (reply h)
  = Content (model_dump_json false
               (error_response (JStr "server-error") (-32600) "Missing session ID")) /\
  ~ is_sse_framed (reply h).
Proof.
  cbv zeta.
  split; [reflexivity |]. split; [vm_compute; reflexivity |].
  split; [vm_compute; reflexivity |]. split; [vm_compute; reflexivity |].
  split; [vm_compute; reflexivity |].
  intros [Hmedia _]. vm_compute in Hmedia. discriminate Hmedia.
Qed.

(** ** The Accept check at the endpoint *)

(** C6.  The Accept header passes exactly when, among its comma-separated
    elements, trimmed and lowercased, one contains [application/json] and one
    contains [text/event-stream]; a request whose header does not pass (an
    absent header included) gets status 406 with the JSON-RPC error -32600 as
    a plain JSON body, and neither the sessions nor the user service
    change. *)
Theorem accept_header_gate `{C : Collaborators}
    (env : Env) (request : MCPRequest) (accept mcp_session_id : option string)
    (self : MCPServer) (us : US) :
  (_validate_accept_header accept = true <-> accepts_json_and_sse accept) /\
  (~ accepts_json_and_sse accept ->
   let h := handle_mcp_request env request accept mcp_session_id self us in
   status_code (reply h) = 406 /\
   media_type (reply h) = Some "application/json" /\
   content (reply h)
   = Content (model_dump_json false
                (error_response (JStr "server-error") (-32600)
                   "Client must accept both application/json and text/event-stream")) /\
   headers (reply h) = [] /\
   ~ is_sse_framed (reply h) /\
   server h = self /\
   user_service h = us).
Proof.
  split; [apply accept_header_spec |].
  intros Hno h. subst h.
  rewrite branch_not_acceptable by now apply accept_header_rejected.
  cbn [reply server user_service json_error_reply status_code media_type content headers].
  repeat (split; [reflexivity |]).
  split; [| split; reflexivity].
  intros [Hmedia _]. discriminate Hmedia.
Qed.

Lemma accept_header_gate_witness :
  let c := mkCall Fixture.env (mkRequest (JNum 1) "initialize" None)
             (Some "application/json") None in
  let h := handle c Fixture.fresh Fixture.untouched in
  ~ accepts_json_and_sse (call_accept c) /\
  status_code (reply h) = 406 /\ server h = Fixture.fresh.
Proof.
  intros c h.
  destruct (accept_header_gate (call_env c) (call_request c) (call_accept c)
              (call_session_id c) Fixture.fresh Fixture.untouched) as [Hiff Hrej].
  assert (Hno : ~ accepts_json_and_sse (call_accept c)).
  { intros H. apply Hiff in H. vm_compute in H. discriminate H. }
  destruct (Hrej Hno) as (H1 & _ & _ & _ & _ & H2 & _).
  split; [exact Hno |]. split; [exact H1 | exact H2].
Defined.

(** ** The SSE framer *)

Section Framer.
Context `{C : Collaborators}.

Lemma frame_bytes (o : object) :
  frame o
  = (PyStr.encode "data: " ++ PyStr.encode (payload o)
     ++ PyStr.encode (PyStr.LF +:+ PyStr.LF))%list.
Proof. unfold frame. now rewrite !encode_append. Qed.

Lemma await_all_objects (objects : list object) (us : US) :
  await_all (map Object objects) us = (inr objects, us).
Proof.
  induction objects as [|o objects IH]; simpl; [reflexivity | now rewrite IH].
Qed.

Lemma stream_of_awaited (messages : list sse_message) :
  forall (us us' : US) (objects : list object),
  await_all messages us = (inr objects, us') ->
  _create_sse_stream messages us = ((map frame objects ++ [DONE])%list, None, us').
Proof.
  induction messages as [|m messages IH]; intros us us' objects; simpl.
  - now intros [= <- <-].
  - destruct (await m us) as [[e | o] us1]; [discriminate |].
    destruct (await_all messages us1) as [[e | objects1] us2] eqn:E; [discriminate |].
    intros [= <- <-]. now rewrite (IH _ _ _ E).
Qed.

Lemma await_all_length (messages : list sse_message) :
  forall (us us' : US) (objects : list object),
  await_all messages us = (inr objects, us') ->
  length objects = length messages.
Proof.
  induction messages as [|m messages IH]; intros us us' objects; simpl.
  - now intros [= <- <-].
  - destruct (await m us) as [[e | o] us1]; [discriminate |].
    destruct (await_all messages us1) as [[e | objects1] us2] eqn:E; [discriminate |].
    intros [= <- <-]. simpl. now rewrite (IH _ _ _ E).
Qed.

End Framer.

(** C8.  For messages that stand for the objects [objects] (each awaitable
    awaited in its turn), the framer yields one frame per object, in order,
    and then the one chunk [data: [DONE]\n\n]: one chunk more than there are
    messages.  Objects that need no awaiting always stand for themselves, and
    no message at all gives the sentinel alone.  The frame of an object is
    the bytes of [data: ], of its JSON serialization and of two line feeds,
    where the serialization is [model_dump_json(exclude_none=True)] for an
    object that has this method, [json.dumps] of its [dict(exclude_none=True)]
    for an object that has [dict], and [json.dumps] of the object
    otherwise. *)
Theorem sse_stream_frames `{C : Collaborators}
    (messages : list sse_message) (us us' : US) (objects : list object) :
  (await_all messages us = (inr objects, us') ->
   _create_sse_stream messages us = ((map frame objects ++ [DONE])%list, None, us') /\
   length (fst (fst (_create_sse_stream messages us))) = S (length messages)) /\
  _create_sse_stream (map Object objects) us
  = ((map frame objects ++ [DONE])%list, None, us) /\
  _create_sse_stream [] us = ([DONE], None, us) /\
  (forall r : MCPResponse,
     frame (Model r)
     = (PyStr.encode "data: " ++ PyStr.encode (model_dump_json true r)
        ++ PyStr.encode (PyStr.LF +:+ PyStr.LF))%list) /\
  (forall d : json,
     frame (HasDict d)
     = (PyStr.encode "data: " ++ PyStr.encode (dumps d)
        ++ PyStr.encode (PyStr.LF +:+ PyStr.LF))%list) /\
  (forall j : json,
     frame (Plain j)
     = (PyStr.encode "data: " ++ PyStr.encode (dumps j)
        ++ PyStr.encode (PyStr.LF +:+ PyStr.LF))%list) /\
  DONE = PyStr.encode ("data: [DONE]" +:+ PyStr.LF +:+ PyStr.LF).
Proof.
  split.
  - intros H. rewrite (stream_of_awaited _ _ _ _ H). split; [reflexivity |].
    cbn [fst]. rewrite length_app, length_map, (await_all_length _ _ _ _ H).
    simpl. lia.
  - split; [apply stream_of_awaited, await_all_objects |].
    split; [reflexivity |].
    split; [intros r; apply (frame_bytes (Model r)) |].
    split; [intros d; apply (frame_bytes (HasDict d)) |].
    split; [intros j; apply (frame_bytes (Plain j)) | reflexivity].
Qed.

Lemma sse_stream_frames_witness :
  let request :=
    mkRequest (JNum 1) "tools/call" (Some [("name", JStr "update_user")]) in
  let messages :=
    [Object (Plain (JNum 7)); tools_call_coroutine Fixture.operating request] in
  exists r log,
    _create_sse_stream messages Fixture.untouched
    = ([frame (Plain (JNum 7)); frame (Model r); DONE], None, log) /\
    frame (Plain (JNum 7)) = PyStr.encode ("data: 7" +:+ PyStr.LF +:+ PyStr.LF) /\
    frame (Model r)
    = (PyStr.encode "data: "
       ++ PyStr.encode (Fixture.render (Fixture.response_json true r))
       ++ PyStr.encode (PyStr.LF +:+ PyStr.LF))%list.
Proof.
  intros request messages.
  eexists _, _.
  split; [| split].
  - refine (proj1 (proj1 (sse_stream_frames messages Fixture.untouched _ [_; _]) _)).
    vm_compute. reflexivity.
  - vm_compute. reflexivity.
  - exact (proj1 (proj2 (proj2 (proj2
             (sse_stream_frames messages Fixture.untouched Fixture.untouched [])))) _).
Defined.

(** ** tools/call *)

Section ToolsCall.
Context `{C : Collaborators}.

Lemma get_mem {V : Type} (k : string) (d : list (string * V)) (v : V) :
  PyDict.get k d = Some v -> PyDict.mem k d = true.
Proof. unfold PyDict.mem. now intros ->. Qed.

(** [self.tools[tool_name]] finds the tool whenever [tool_name in self.tools]
    held: the [KeyError] of the model is never raised. *)
Lemma getitem_after_key_in {V : Type} (k : json) (d : list (string * V)) :
  key_in k d = inr true -> is_Some (getitem k d).
Proof.
  destruct k; try discriminate. cbn [key_in getitem]. unfold PyDict.mem.
  destruct (PyDict.get s d); [now eexists | discriminate].
Qed.

(** A response with an error field comes without any call on the user
    service. *)
Lemma tools_call_error_runs_no_tool (self : MCPServer) (request : MCPRequest)
    (us us' : US) (r : MCPResponse) :
  handle_tools_call self request us = (inr r, us') ->
  error r <> None -> us' = us.
Proof.
  unfold handle_tools_call.
  destruct (params request) as [[|kv p]|]; try (now intros [= <- <-]).
  destruct (negb _); [now intros [= <- <-] |].
  destruct (key_in _ _) as [e | [|]]; [discriminate | | now intros [= <- <-]].
  destruct (getitem _ _) as [tool|]; [| discriminate].
  destruct (execute tool _ us) as [[text | msg] us1];
    intros [= <- <-]; cbn [error]; congruence.
Qed.

(** [execute] of the four tools whose source is at hand never raises: the
    [except] clause turns the exception into text. *)
Lemma guarded_returns (prefix : string) (body : json -> US -> executed * US)
    (arguments : json) (us : US) :
  exists text, fst (guarded prefix body arguments us) = Returns text.
Proof.
  unfold guarded. destruct (body arguments us) as [[text | msg] us'];
    cbn [fst]; eauto.
Qed.

Lemma known_tools_never_raise (tool : Tool US) (arguments : json) (us : US) :
  In tool [GetUserByIdTool; SearchUsersTool; CreateUserTool; DeleteUserTool] ->
  exists text, fst (execute tool arguments us) = Returns text.
Proof.
  intros [<- | [<- | [<- | [<- | []]]]]; apply guarded_returns.
Qed.

(** At the endpoint, for a session that is ready: whatever response
    [handle_tools_call] gives goes out as one frame and the sentinel, with
    status 200. *)
Lemma tools_call_at_endpoint (env : Env) (request : MCPRequest)
    (accept : option string) (self : MCPServer) (us us' : US)
    (sid : string) (s : MCPSession) (r : MCPResponse) :
  _validate_accept_header accept = true ->
  method request = "tools/call" ->
  sid <> EmptyString ->
  sessions self !! sid = Some s ->
  ready_for_operation s = true ->
  handle_tools_call self request us = (inr r, us') ->
  let h := handle_mcp_request env request accept (Some sid) self us in
  reply h
  = {| status_code := 200;
       content := Streaming [frame (Model r); DONE] None;
       media_type := Some "text/event-stream";
       headers := [("Cache-Control", Some "no-cache");
                   ("Connection", Some "keep-alive");
                   (MCP_SESSION_ID_HEADER, Some sid)] |} /\
  user_service h = us'.
Proof.
  intros Ha Hm Hne Hl Hr Hcall h. subst h.
  rewrite (branch_operation _ _ _ _ _ _ sid s)
    by (auto; rewrite Hm; discriminate).
  rewrite Hm. cbn [String.eqb Ascii.eqb Bool.eqb reply user_service].
  unfold StreamingResponse, tools_call_coroutine.
  cbn [_create_sse_stream await].
  change (handle_tools_call
            (with_sessions (<[sid := set_last_activity (loop_time env) s]> (sessions self))
               self) request us)
    with (handle_tools_call self request us).
  rewrite Hcall. split; reflexivity.
Qed.

(** What [_validate_protocol_version] would answer. *)
Lemma validate_protocol_version_spec (self : MCPServer) (v : string) :
  _validate_protocol_version self (JStr v)
  = if String.eqb v "2024-11-05" then JStr v else JStr (protocol_version self).
Proof.
  unfold _validate_protocol_version. cbn [existsb]. now rewrite orb_false_r.
Qed.

End ToolsCall.

(** C2.  A [tools/call] whose [params] name a registered tool (by a non-empty
    string, which is what the code takes for a name) gets a response with a
    result and no error: the text the tool returned, as
    [{content: [{type: text, text}]}], or, when [execute] raised, the text
    [Tool execution error: <message>] with [isError: true]. *)
Theorem registered_tool_call_gives_result `{C : Collaborators}
    (self : MCPServer) (request : MCPRequest) (us : US)
    (p : list (string * json)) (n : string) (tool : Tool US) :
  params request = Some p ->
  PyDict.get "name" p = Some (JStr n) ->
  n <> EmptyString ->
  PyDict.get n (tools self) = Some tool ->
  let arguments := get_default "arguments" (JObj []) p in
  let r := handle_tools_call self request us in
  (exists response, fst r = inr response /\
     error response = None /\ is_Some (result response)) /\
  match execute tool arguments us with
  | (Returns text, us') =>
      r = (inr {| resp_id := req_id request;
                  result :=
                    Some (JObj [("content",
                                  JArr [JObj [("type", JStr "text");
                                              ("text", JStr text)]])]);
                  error := None |}, us')
  | (Raises msg, us') =>
      r = (inr {| resp_id := req_id request;
                  result :=
                    Some (JObj [("content",
                                  JArr [JObj [("type", JStr "text");
                                              ("text",
                                                JStr ("Tool execution error: " +:+ msg))]]);
                                ("isError", JBool true)]);
                  error := None |}, us')
  end.
Proof.
  intros Hp Hn Hne Ht arguments r.
  assert (Hr : r = match execute tool arguments us with
                   | (Returns text, us') =>
                       (inr {| resp_id := req_id request;
                               result := Some (JObj [("content", text_content text)]);
                               error := None |}, us')
                   | (Raises msg, us') =>
                       (inr {| resp_id := req_id request;
                               result :=
                                 Some (JObj [("content",
                                               text_content ("Tool execution error: " +:+ msg));
                                             ("isError", JBool true)]);
                               error := None |}, us')
                   end).
  { subst r arguments. unfold handle_tools_call. rewrite Hp.
    destruct p as [|kv p]; [discriminate Hn |].
    unfold get_json. rewrite Hn. cbn [truthy].
    destruct n as [|c n]; [congruence |]. cbn [PyStr.truthy negb key_in getitem].
    rewrite (get_mem _ _ _ Ht), Ht. reflexivity. }
  rewrite Hr. destruct (execute tool arguments us) as [[text | msg] us'].
  - split; [| reflexivity]. eexists. cbn [fst]. split; [reflexivity |].
    split; [reflexivity | now eexists].
  - split; [| reflexivity]. eexists. cbn [fst]. split; [reflexivity |].
    split; [reflexivity | now eexists].
Qed.

Lemma registered_tool_call_gives_result_witness :
  let request :=
    mkRequest (JNum 1) "tools/call" (Some [("name", JStr "update_user")]) in
  handle_tools_call Fixture.operating request Fixture.untouched
  = (inr {| resp_id := JNum 1;
            result :=
              Some (JObj [("content",
                            JArr [JObj [("type", JStr "text");
                                        ("text",
                                          JStr "Tool execution error: user service is down")]]);
                          ("isError", JBool true)]);
            error := None |},
     [("update_user", JObj [])]).
Proof.
  intros request.
  exact (proj2 (registered_tool_call_gives_result Fixture.operating request
                  Fixture.untouched [("name", JStr "update_user")] "update_user"
                  UpdateUserTool eq_refl eq_refl ltac:(discriminate) eq_refl)).
Defined.

(** C4.  The code of the errors that [handle_tools_call] returns is positive:
    32602 when [params] is absent and when it has no [name], 32601 when the
    name is in no tool's; none of them reaches the user service. *)
Theorem tools_call_error_codes_are_positive `{C : Collaborators}
    (self : MCPServer) (id : json) (us : US) :
  handle_tools_call self (mkRequest id "tools/call" None) us
  = (inr {| resp_id := id; result := None;
            error := Some {| code := 32602; message := "Missing parameters" |} |}, us) /\
  handle_tools_call self (mkRequest id "tools/call" (Some [("arguments", JObj [])])) us
  = (inr {| resp_id := id; result := None;
            error := Some {| code := 32602;
                             message := "Missing required parameter: name" |} |}, us) /\
  (PyDict.get "no_such_tool" (tools self) = None ->
   handle_tools_call self
     (mkRequest id "tools/call" (Some [("name", JStr "no_such_tool")])) us
   = (inr {| resp_id := id; result := None;
             error := Some {| code := 32601;
                              message := "Tool 'no_such_tool' not found" |} |}, us)).
Proof.
  split; [reflexivity |]. split; [reflexivity |].
  intros H. unfold handle_tools_call. cbn [params get_json PyDict.get String.eqb
    Ascii.eqb Bool.eqb truthy PyStr.truthy negb key_in].
  unfold PyDict.mem. rewrite H. reflexivity.
Qed.

Lemma tools_call_error_codes_are_positive_witness :
  handle_tools_call Fixture.operating
    (mkRequest (JNum 1) "tools/call" (Some [("name", JStr "no_such_tool")]))
    Fixture.untouched
  = (inr {| resp_id := JNum 1; result := None;
            error := Some {| code := 32601;
                             message := "Tool 'no_such_tool' not found" |} |},
     Fixture.untouched).
Proof.
  exact (proj2 (proj2 (tools_call_error_codes_are_positive Fixture.operating
                         (JNum 1) Fixture.untouched)) eq_refl).
Defined.

(** ** The protocol version of initialize *)

(** C3.  [handle_initialize] does not negotiate: a client that proposes the
    unsupported version 2025-03-26 gets 2025-03-26 back, where
    [_validate_protocol_version] answers the server's 2024-11-05. *)
Theorem initialize_echoes_unsupported_version `{C : Collaborators}
    (env : Env) (id : json) (self : MCPServer) :
  let request :=
    mkRequest id "initialize" (Some [("protocolVersion", JStr "2025-03-26")]) in
  protocolVersion_of (fst (fst (handle_initialize env request self)))
  = Some (JStr "2025-03-26") /\
  _validate_protocol_version MCPServer_init (JStr "2025-03-26") = JStr "2024-11-05".
Proof. split; reflexivity. Qed.

(** C10.  In the result of [handle_initialize], [protocolVersion] is null
    when [params] is a non-empty map without that key, the server's own
    version when [params] is absent or empty, and otherwise whatever value the
    client gave, unchecked; the server's own version is 2024-11-05 on every
    server reached from startup. *)
Theorem initialize_protocol_version `{C : Collaborators}
    (env : Env) (request : MCPRequest) (self : MCPServer) :
  let response := fst (fst (handle_initialize env request self)) in
  (forall p, params request = Some p -> p <> [] ->
     PyDict.get "protocolVersion" p = None ->
     protocolVersion_of response = Some JNull) /\
  (params request = None \/ params request = Some [] ->
   protocolVersion_of response = Some (JStr (protocol_version self))) /\
  (forall p v, params request = Some p ->
     PyDict.get "protocolVersion" p = Some v ->
     protocolVersion_of response = Some v) /\
  (forall calls us0,
     protocol_version (fst (run calls MCPServer_init us0)) = "2024-11-05").
Proof.
  intros response. subst response. unfold handle_initialize, protocolVersion_of.
  cbn [fst result PyDict.get String.eqb Ascii.eqb Bool.eqb].
  split; [| split; [| split]].
  - intros p Hp Hne Hg. rewrite Hp. destruct p as [|kv p]; [congruence |].
    unfold get_json. now rewrite Hg.
  - intros [-> | ->]; reflexivity.
  - intros p v Hp Hg. rewrite Hp. destruct p as [|kv p]; [discriminate Hg |].
    unfold get_json. now rewrite Hg.
  - intros calls us0.
    now destruct (run_keeps_server_ok calls MCPServer_init us0 init_server_ok).
Qed.

Lemma initialize_protocol_version_witness :
  protocolVersion_of
    (fst (fst (handle_initialize Fixture.env
                 (mkRequest (JNum 1) "initialize" (Some [("clientInfo", JObj [])]))
                 Fixture.fresh)))
  = Some JNull /\
  protocolVersion_of
    (fst (fst (handle_initialize Fixture.env
                 (mkRequest (JNum 1) "initialize" (Some []))
                 Fixture.fresh)))
  = Some (JStr "2024-11-05") /\
  protocolVersion_of
    (fst (fst (handle_initialize Fixture.env
                 (mkRequest (JNum 1) "initialize"
                    (Some [("protocolVersion", JNum 3)]))
                 Fixture.fresh)))
  = Some (JNum 3).
Proof.
  split; [| split].
  - exact (proj1 (initialize_protocol_version Fixture.env
                    (mkRequest (JNum 1) "initialize" (Some [("clientInfo", JObj [])]))
                    Fixture.fresh)
             [("clientInfo", JObj [])] eq_refl ltac:(discriminate) eq_refl).
  - exact (proj1 (proj2 (initialize_protocol_version Fixture.env
                           (mkRequest (JNum 1) "initialize" (Some []))
                           Fixture.fresh))
             (or_intror eq_refl)).
  - exact (proj1 (proj2 (proj2 (initialize_protocol_version Fixture.env
                                  (mkRequest (JNum 1) "initialize"
                                     (Some [("protocolVersion", JNum 3)]))
                                  Fixture.fresh)))
             [("protocolVersion", JNum 3)] (JNum 3) eq_refl eq_refl).
Defined.

(** * Further properties *)

(** ** Requests without a usable session *)

(** X1.  A request past the Accept check that is not [initialize] and whose
    session header is absent or empty (a [notifications/initialized]
    included) gets status 400 and the JSON-RPC error -32600 "Missing session
    ID" as a plain JSON body; sessions and user service stay as they were. *)
Theorem missing_session_header_rejected `{C : Collaborators}
    (env : Env) (request : MCPRequest) (accept mcp_session_id : option string)
    (self : MCPServer) (us : US) :
  _validate_accept_header accept = true ->
  method request <> "initialize" ->
  mcp_session_id = None \/ mcp_session_id = Some EmptyString ->
  let h := handle_mcp_request env request accept mcp_session_id self us in
  status_code (reply h) = 400 /\
  media_type (reply h) = Some "application/json" /\
  content (reply h)
  = Content (model_dump_json false
               {| resp_id := JStr "server-error"; result := None;
                  error := Some {| code := -32600; message := "Missing session ID" |} |}) /\
  headers (reply h) = [] /\
  server h = self /\ user_service h = us.
Proof.
  intros Ha Hm Hs h. subst h.
  rewrite branch_no_session_header by (auto; destruct Hs as [-> | ->]; reflexivity).
  repeat split.
Qed.

Lemma missing_session_header_rejected_witness :
  let h := handle (Fixture.call "notifications/initialized" None (Some EmptyString))
             Fixture.initialized Fixture.untouched in
  status_code (reply h) = 400 /\ server h = Fixture.initialized.
Proof.
  intros h.
  destruct (missing_session_header_rejected Fixture.env
              (mkRequest (JNum 1) "notifications/initialized" None)
              Fixture.accept (Some EmptyString) Fixture.initialized Fixture.untouched
              eq_refl ltac:(discriminate) (or_intror eq_refl))
    as (H1 & _ & _ & _ & H2 & _).
  split; [exact H1 | exact H2].
Defined.

(** X2.  A request past the Accept check that is not [initialize] and whose
    session header names no stored session gets status 400 with the plain
    text "No valid session ID provided", without media type; nothing is
    stored, so a [notifications/initialized] cannot make a session. *)
Theorem unknown_session_rejected `{C : Collaborators}
    (env : Env) (request : MCPRequest) (accept : option string) (sid : string)
    (self : MCPServer) (us : US) :
  _validate_accept_header accept = true ->
  method request <> "initialize" ->
  sid <> EmptyString ->
  sessions self !! sid = None ->
  let h := handle_mcp_request env request accept (Some sid) self us in
  reply h
  = {| status_code := 400;
       content := Content "No valid session ID provided";
       media_type := None;
       headers := [] |} /\
  server h = self /\ user_service h = us /\
  sessions (server h) !! sid = None.
Proof.
  intros Ha Hm Hne Hl h. subst h.
  rewrite (branch_unknown_session _ _ _ _ _ _ sid) by auto.
  cbn [reply server user_service]. auto.
Qed.

Lemma unknown_session_rejected_witness :
  let h := handle (Fixture.call "notifications/initialized" None (Some "stranger"))
             Fixture.initialized Fixture.untouched in
  content (reply h) = Content "No valid session ID provided" /\
  sessions (server h) !! "stranger" = None.
Proof.
  intros h.
  destruct (unknown_session_rejected Fixture.env
              (mkRequest (JNum 1) "notifications/initialized" None)
              Fixture.accept "stranger" Fixture.initialized Fixture.untouched
              eq_refl ltac:(discriminate) ltac:(discriminate)
              ltac:(vm_compute; reflexivity))
    as (H1 & _ & _ & H2).
  split; [| exact H2].
  change (content (reply h)) with
    (content (reply (handle_mcp_request Fixture.env
                       (mkRequest (JNum 1) "notifications/initialized" None)
                       Fixture.accept (Some "stranger")
                       Fixture.initialized Fixture.untouched))).
  now rewrite H1.
Defined.

(** ** What the sessions go through *)

Section SessionSteps.
Context `{C : Collaborators}.

Lemma lookup_with_sessions (self : MCPServer) (sid k : string) (s' : MCPSession) :
  sessions (with_sessions (<[sid := s']> (sessions self)) self) !! k
  = if decide (sid = k) then Some s' else sessions self !! k.
Proof. cbn [sessions with_sessions]. apply lookup_insert. Qed.

End SessionSteps.

(** X3.  No request removes a session; and a session that is stored after a
    request but was not before was made by that request: an [initialize] past
    the Accept check, under the id drawn for it. *)
Theorem sessions_only_grow `{C : Collaborators}
    (env : Env) (request : MCPRequest) (accept mcp_session_id : option string)
    (self : MCPServer) (us : US) (k : string) :
  let h := handle_mcp_request env request accept mcp_session_id self us in
  (is_Some (sessions self !! k) -> is_Some (sessions (server h) !! k)) /\
  (sessions self !! k = None -> is_Some (sessions (server h) !! k) ->
   _validate_accept_header accept = true /\ method request = "initialize" /\
   k = Uuid.hex32 (uuid4 env) /\
   sessions (server h) !! k = Some (MCPSession_init (loop_time env) k)).
Proof.
  cbv zeta.
  destruct (handle_branch env request accept mcp_session_id self us);
    cbn [server]; rewrite ?lookup_with_sessions.
  - split; [auto | intros -> [x Hx]; discriminate].
  - destruct (decide (sid = k)) as [<- | Hne].
    + split; [intros _; now eexists | auto].
    + split; [auto | intros -> [x Hx]; discriminate].
  - split; [auto | intros -> [x Hx]; discriminate].
  - split; [auto | intros -> [x Hx]; discriminate].
  - destruct (decide (sid = k)) as [<- | Hne].
    + split; [intros _; now eexists | congruence].
    + split; [auto | intros -> [x Hx]; discriminate].
  - destruct (decide (sid = k)) as [<- | Hne].
    + split; [intros _; now eexists | congruence].
    + split; [auto | intros -> [x Hx]; discriminate].
  - unfold self'. rewrite lookup_with_sessions.
    destruct (decide (sid = k)) as [<- | Hne].
    + split; [intros _; now eexists | congruence].
    + split; [auto | intros -> [x Hx]; discriminate].
Qed.

Lemma sessions_only_grow_witness :
  let h := handle (Fixture.call "tools/list" None (Some Fixture.sid))
             Fixture.initialized Fixture.untouched in
  is_Some (sessions (server h) !! Fixture.sid).
Proof.
  intros h.
  refine (proj1 (sessions_only_grow Fixture.env (mkRequest (JNum 1) "tools/list" None)
                   Fixture.accept (Some Fixture.sid) Fixture.initialized
                   Fixture.untouched Fixture.sid) _).
  exists (mkSession Fixture.sid false 7 7). vm_compute. reflexivity.
Defined.

(** X4.  A request leaves alone every session but the one its header names
    and the one an [initialize] makes: sessions do not interfere. *)
Theorem other_sessions_untouched `{C : Collaborators}
    (env : Env) (request : MCPRequest) (accept mcp_session_id : option string)
    (self : MCPServer) (us : US) (k : string) :
  mcp_session_id <> Some k \/ method request = "initialize" ->
  method request <> "initialize" \/ k <> Uuid.hex32 (uuid4 env) ->
  sessions (server (handle_mcp_request env request accept mcp_session_id self us)) !! k
  = sessions self !! k.
Proof.
  intros Hhdr Hnew.
  destruct (handle_branch env request accept mcp_session_id self us);
    cbn [server]; try reflexivity; try unfold self';
    rewrite lookup_with_sessions;
    destruct (decide (sid = k)) as [<- | Hne]; try reflexivity.
  - destruct Hnew as [Hnew | Hnew]; contradiction.
  - destruct Hhdr as [Hhdr | Hhdr]; congruence.
  - destruct Hhdr as [Hhdr | Hhdr]; congruence.
  - destruct Hhdr as [Hhdr | Hhdr]; congruence.
Qed.

Lemma other_sessions_untouched_witness :
  sessions (server (handle_mcp_request Fixture.env
                      (mkRequest (JNum 1) "notifications/initialized" None)
                      Fixture.accept (Some "stranger")
                      Fixture.initialized Fixture.untouched)) !! Fixture.sid
  = sessions Fixture.initialized !! Fixture.sid.
Proof.
  apply other_sessions_untouched.
  - left. discriminate.
  - left. discriminate.
Defined.

(** X5.  Every request past the Accept check that is not [initialize] and
    names a stored session sets that session's [last_activity] to the clock's
    reading, whatever its method and even when it is rejected as not ready;
    the session keeps its id and its creation time, and its readiness changes
    only to true and only by [notifications/initialized]. *)
Theorem named_session_is_touched `{C : Collaborators}
    (env : Env) (request : MCPRequest) (accept : option string) (sid : string)
    (self : MCPServer) (us : US) (s : MCPSession) :
  _validate_accept_header accept = true ->
  method request <> "initialize" ->
  sid <> EmptyString ->
  sessions self !! sid = Some s ->
  let h := handle_mcp_request env request accept (Some sid) self us in
  sessions (server h) !! sid
  = Some {| session_id := session_id s;
            ready_for_operation :=
              if String.eqb (method request) "notifications/initialized"
              then true else ready_for_operation s;
            created_at := created_at s;
            last_activity := loop_time env |}.
Proof.
  intros Ha Hm Hne Hl h. subst h.
  destruct (String.eqb_spec (method request) "notifications/initialized") as [Hn | Hn].
  - rewrite (branch_initialized _ _ _ _ _ _ sid s) by auto.
    cbn [server]. rewrite lookup_with_sessions.
    destruct (decide (sid = sid)); [reflexivity | contradiction].
  - destruct (ready_for_operation s) eqn:Hr.
    + rewrite (branch_operation _ _ _ _ _ _ sid s) by auto.
      cbn [server]. rewrite lookup_with_sessions.
      destruct (decide (sid = sid)); [| contradiction].
      unfold set_last_activity. now rewrite Hr.
    + rewrite (branch_not_ready _ _ _ _ _ _ sid s) by auto.
      cbn [server]. rewrite lookup_with_sessions.
      destruct (decide (sid = sid)); [| contradiction].
      unfold set_last_activity. now rewrite Hr.
Qed.

Lemma named_session_is_touched_witness :
  sessions (server (handle_mcp_request (mkEnv 5 99)
                      (mkRequest (JNum 1) "tools/list" None)
                      Fixture.accept (Some Fixture.sid)
                      Fixture.initialized Fixture.untouched)) !! Fixture.sid
  = Some (mkSession Fixture.sid false 7 99).
Proof.
  assert (Hl : sessions Fixture.initialized !! Fixture.sid
               = Some (mkSession Fixture.sid false 7 7))
    by (vm_compute; reflexivity).
  pose proof (named_session_is_touched (mkEnv 5 99)
                (mkRequest (JNum 1) "tools/list" None)
                Fixture.accept Fixture.sid Fixture.initialized Fixture.untouched
                (mkSession Fixture.sid false 7 7)
                eq_refl ltac:(discriminate) ltac:(discriminate) Hl) as H.
  cbv zeta in H. rewrite H. reflexivity.
Defined.

(** X6.  A session that is ready stays ready through every request, but an
    [initialize] whose UUID renders to that session's id: [handle_initialize]
    stores the new session over the old one without looking. *)
Theorem readiness_is_kept `{C : Collaborators}
    (env : Env) (request : MCPRequest) (accept mcp_session_id : option string)
    (self : MCPServer) (us : US) (k : string) :
  let h := handle_mcp_request env request accept mcp_session_id self us in
  (ready self k ->
   method request <> "initialize" \/ k <> Uuid.hex32 (uuid4 env) ->
   ready (server h) k) /\
  (ready self k ->
   _validate_accept_header accept = true -> method request = "initialize" ->
   k = Uuid.hex32 (uuid4 env) ->
   ~ ready (server h) k).
Proof.
  cbv zeta. split.
  - intros (s & Hl & Hr) Hnew.
    destruct (handle_branch env request accept mcp_session_id self us);
      cbn [server]; try (now exists s); try unfold self';
      apply ready_insert; destruct (decide (sid = k)) as [<- | Hne];
      try (now exists s).
    + destruct Hnew as [Hnew | Hnew]; contradiction.
    + reflexivity.
    + cbn [set_last_activity ready_for_operation]. congruence.
    + cbn [set_last_activity ready_for_operation]. congruence.
  - intros _ Ha Hm -> Hr. rewrite branch_initialize in Hr by assumption.
    cbn [server] in Hr. apply ready_insert in Hr.
    destruct (decide (Uuid.hex32 (uuid4 env) = Uuid.hex32 (uuid4 env)));
      [discriminate | contradiction].
Qed.

Lemma readiness_is_kept_witness :
  ready (server (handle_mcp_request Fixture.env (mkRequest (JNum 1) "tools/list" None)
                   Fixture.accept (Some Fixture.sid)
                   Fixture.operating Fixture.untouched)) Fixture.sid /\
  ~ ready (server (handle_mcp_request Fixture.env (mkRequest (JNum 1) "initialize" None)
                     Fixture.accept None
                     Fixture.operating Fixture.untouched)) Fixture.sid.
Proof.
  assert (Hr : ready Fixture.operating Fixture.sid).
  { exists (mkSession Fixture.sid true 7 7). split; vm_compute; reflexivity. }
  split.
  - apply readiness_is_kept; [exact Hr | left; discriminate].
  - apply readiness_is_kept; [exact Hr | reflexivity | reflexivity |].
    vm_compute. reflexivity.
Defined.

(** ** The shape of the replies *)

(** X7.  On a server whose store is in order, every [Mcp-Session-Id] header
    the endpoint sends has a value (never [None]), the value is not empty,
    and it names a session that is stored when the reply leaves. *)
Theorem session_header_names_a_session `{C : Collaborators}
    (env : Env) (request : MCPRequest) (accept mcp_session_id : option string)
    (self : MCPServer) (us : US) (v : option string) :
  store_ok self ->
  let h := handle_mcp_request env request accept mcp_session_id self us in
  In (MCP_SESSION_ID_HEADER, v) (headers (reply h)) ->
  exists sid, v = Some sid /\ sid <> EmptyString /\
              is_Some (sessions (server h) !! sid).
Proof.
  intros Hok. cbv zeta.
  destruct (handle_branch env request accept mcp_session_id self us);
    cbn [reply server json_error_reply headers];
    try (intros Hin; now destruct Hin).
  - rewrite stream_of_object. cbn [fst headers].
    intros [[=] | [[=] | [[= <-] | []]]].
    exists sid. split; [reflexivity |]. split.
    + intros Hs. pose proof (UuidFacts.hex32_is_session_id (uuid4 env)) as [Hlen _].
      fold sid in Hlen. rewrite Hs in Hlen. discriminate Hlen.
    + rewrite lookup_with_sessions.
      destruct (decide (sid = sid)); [now eexists | contradiction].
  - intros [[= <-] | []]. destruct (Hok _ _ H3) as [Hid _].
    exists sid. split; [now rewrite Hid |]. split; [assumption |].
    rewrite lookup_with_sessions.
    destruct (decide (sid = sid)); [now eexists | contradiction].
  - unfold StreamingResponse.
    destruct (_create_sse_stream [mcp_response] us) as [[chunks raised] us'].
    cbn [fst headers]. intros [[=] | [[=] | [[= <-] | []]]].
    exists sid. split; [reflexivity |]. split; [assumption |].
    unfold self'. rewrite lookup_with_sessions.
    destruct (decide (sid = sid)); [now eexists | contradiction].
Qed.

Lemma session_header_names_a_session_witness :
  exists sid,
    Some Fixture.sid = Some sid /\ sid <> EmptyString /\
    is_Some (sessions (server (handle_mcp_request Fixture.env
                                 (mkRequest (JNum 1) "initialize" None)
                                 Fixture.accept None
                                 Fixture.fresh Fixture.untouched)) !! sid).
Proof.
  apply (session_header_names_a_session Fixture.env
           (mkRequest (JNum 1) "initialize" None) Fixture.accept None
           Fixture.fresh Fixture.untouched (Some Fixture.sid)).
  - apply init_server_ok.
  - vm_compute. right. right. left. reflexivity.
Defined.

(** X8.  The status of a reply is 200, 202, 400 or 406; the reply is an SSE
    stream exactly when the status is 200, and a 202 has no body and answers
    a [notifications/initialized]. *)
Theorem reply_status_and_framing `{C : Collaborators}
    (env : Env) (request : MCPRequest) (accept mcp_session_id : option string)
    (self : MCPServer) (us : US) :
  let h := handle_mcp_request env request accept mcp_session_id self us in
  In (status_code (reply h)) [200; 202; 400; 406] /\
  (is_sse_framed (reply h) <-> status_code (reply h) = 200) /\
  (status_code (reply h) = 202 ->
   content (reply h) = NoContent /\ method request = "notifications/initialized").
Proof.
  assert (Hno : forall r : Response,
            media_type r <> Some "text/event-stream" -> status_code r <> 200 ->
            (is_sse_framed r <-> status_code r = 200)).
  { intros r Hm Hs. split; [intros [Hmedia _]; contradiction | contradiction]. }
  assert (Hyes : forall messages hdr us0,
            let r := fst (StreamingResponse messages hdr us0) in
            status_code r = 200 /\ is_sse_framed r).
  { intros messages hdr us0. unfold StreamingResponse.
    destruct (_create_sse_stream messages us0) as [[chunks raised] us'].
    cbn. split; [reflexivity |]. split; [reflexivity | now eexists _, _]. }
  cbv zeta.
  destruct (handle_branch env request accept mcp_session_id self us);
    cbn [reply json_error_reply status_code content].
  - split; [cbn; auto |]. split; [now apply Hno | discriminate].
  - destruct (Hyes [Object (Model (fst (fst (handle_initialize env request self))))]
                (Some sid) us) as [Hs Hf].
    rewrite Hs. split; [cbn; auto |]. split; [tauto | discriminate].
  - split; [cbn; auto |]. split; [now apply Hno | discriminate].
  - split; [cbn; auto |]. split; [now apply Hno | discriminate].
  - split; [cbn; auto |]. split; [now apply Hno | auto].
  - split; [cbn; auto |]. split; [now apply Hno | discriminate].
  - destruct (Hyes [mcp_response] (Some sid) us) as [Hs Hf].
    rewrite Hs. split; [cbn; auto |]. split; [tauto | discriminate].
Qed.

Lemma reply_status_and_framing_witness :
  content (reply (handle_mcp_request Fixture.env
                    (mkRequest (JNum 1) "notifications/initialized" None)
                    Fixture.accept (Some Fixture.sid)
                    Fixture.initialized Fixture.untouched)) = NoContent.
Proof.
  apply reply_status_and_framing. vm_compute. reflexivity.
Defined.

(** X9.  The user service is reached by one kind of request only: a
    [tools/call] past the Accept check whose header names a session that is
    ready.  Every other request leaves it as it was. *)
Theorem only_tools_call_reaches_user_service `{C : Collaborators}
    (env : Env) (request : MCPRequest) (accept mcp_session_id : option string)
    (self : MCPServer) (us : US) :
  _validate_accept_header accept = false \/
  method request <> "tools/call" \/
  (forall sid, mcp_session_id = Some sid -> ~ ready self sid) ->
  user_service (handle_mcp_request env request accept mcp_session_id self us) = us.
Proof.
  intros Hwhy.
  destruct (handle_branch env request accept mcp_session_id self us);
    cbn [user_service]; try reflexivity.
  destruct Hwhy as [Hw | [Hw | Hw]].
  - congruence.
  - unfold mcp_response. apply String.eqb_neq in Hw. rewrite Hw.
    destruct (String.eqb (method request) "tools/list"); now rewrite stream_of_object.
  - exfalso. apply (Hw sid); [assumption | now exists s].
Qed.

Lemma only_tools_call_reaches_user_service_witness :
  user_service (handle_mcp_request Fixture.env
                  (mkRequest (JNum 1) "tools/call" (Some [("name", JStr "add_user")]))
                  Fixture.accept (Some Fixture.sid)
                  Fixture.initialized Fixture.untouched)
  = Fixture.untouched.
Proof.
  apply only_tools_call_reaches_user_service.
  right. right. intros sid [= <-] (s & Hl & Hr).
  vm_compute in Hl. injection Hl as <-. discriminate Hr.
Defined.

(** X10.  On a ready session, a method that is none of the four known ones
    gets status 200 and a stream of one frame and the sentinel; the frame
    carries the request's id and the error -32602 "Method '<method>' not
    found".  No tool runs. *)
Theorem unknown_method_reply `{C : Collaborators}
    (env : Env) (request : MCPRequest) (accept : option string) (sid : string)
    (self : MCPServer) (us : US) (s : MCPSession) :
  _validate_accept_header accept = true ->
  method request <> "initialize" ->
  method request <> "notifications/initialized" ->
  method request <> "tools/list" ->
  method request <> "tools/call" ->
  sid <> EmptyString ->
  sessions self !! sid = Some s ->
  ready_for_operation s = true ->
  let h := handle_mcp_request env request accept (Some sid) self us in
  reply h
  = {| status_code := 200;
       content :=
         Streaming
           [frame (Model {| resp_id := req_id request; result := None;
                            error :=
                              Some {| code := -32602;
                                      message := "Method '" +:+ method request
                                                 +:+ "' not found" |} |});
            DONE] None;
       media_type := Some "text/event-stream";
       headers := [("Cache-Control", Some "no-cache");
                   ("Connection", Some "keep-alive");
                   (MCP_SESSION_ID_HEADER, Some sid)] |} /\
  user_service h = us.
Proof.
  intros Ha Hi Hn Hl Hc Hne Hs Hr h. subst h.
  rewrite (branch_operation _ _ _ _ _ _ sid s) by auto.
  apply String.eqb_neq in Hl, Hc. rewrite Hl, Hc.
  rewrite stream_of_object. split; reflexivity.
Qed.

Lemma unknown_method_reply_witness :
  user_service (handle_mcp_request Fixture.env (mkRequest (JNum 1) "ping" None)
                  Fixture.accept (Some Fixture.sid)
                  Fixture.operating Fixture.untouched)
  = Fixture.untouched.
Proof.
  apply (unknown_method_reply Fixture.env (mkRequest (JNum 1) "ping" None)
           Fixture.accept Fixture.sid Fixture.operating Fixture.untouched
           (mkSession Fixture.sid true 7 7));
    try discriminate; try (vm_compute; reflexivity).
Defined.

(** ** The framer when an awaitable fails *)

Section FramerSteps.
Context `{C : Collaborators}.

Lemma stream_app (before after : list sse_message) :
  forall (us us1 : US) (objects : list object),
  await_all before us = (inr objects, us1) ->
  _create_sse_stream (before ++ after)%list us
  = ((map frame objects ++ fst (fst (_create_sse_stream after us1)))%list,
     snd (fst (_create_sse_stream after us1)),
     snd (_create_sse_stream after us1)).
Proof.
  induction before as [|m before IH]; intros us us1 objects; simpl.
  - intros [= <- <-]. now destruct (_create_sse_stream after us) as [[? ?] ?].
  - destruct (await m us) as [[e | o] us0]; [discriminate |].
    destruct (await_all before us0) as [[e | objects0] us2] eqn:E; [discriminate |].
    intros [= <- <-]. now rewrite (IH _ _ _ E).
Qed.

End FramerSteps.

(** X11.  When the awaitable [m] raises, the stream ends there: the chunks are
    the frames of the messages before [m], in order, without the [DONE]
    sentinel, and the messages after [m] are never awaited (the user service
    is left as [m] left it). *)
Theorem stream_stops_at_first_failure `{C : Collaborators}
    (before after : list sse_message) (m : sse_message)
    (us us1 us2 : US) (objects : list object) (e : pyexn) :
  await_all before us = (inr objects, us1) ->
  await m us1 = (inl e, us2) ->
  _create_sse_stream (before ++ m :: after)%list us = (map frame objects, Some e, us2).
Proof.
  intros Hb Hm. rewrite (stream_app _ _ _ _ _ Hb). simpl. rewrite Hm.
  cbn [fst snd]. now rewrite app_nil_r.
Qed.

Lemma stream_stops_at_first_failure_witness :
  let failing :=
    tools_call_coroutine Fixture.operating
      (mkRequest (JNum 1) "tools/call" (Some [("name", JArr [JNum 1])])) in
  let later :=
    tools_call_coroutine Fixture.operating
      (mkRequest (JNum 2) "tools/call" (Some [("name", JStr "update_user")])) in
  _create_sse_stream ([Object (Plain (JNum 7))] ++ failing :: [later])%list
    Fixture.untouched
  = ([frame (Plain (JNum 7))], Some (TypeError "unhashable type: 'list'"),
     Fixture.untouched).
Proof.
  intros failing later.
  exact (stream_stops_at_first_failure [Object (Plain (JNum 7))] [later] failing
           Fixture.untouched Fixture.untouched Fixture.untouched
           [Plain (JNum 7)] (TypeError "unhashable type: 'list'") eq_refl eq_refl).
Defined.

(** X12.  A [tools/call] whose [name] is a non-empty list or dict makes
    [handle_tools_call] raise a [TypeError] at [tool_name in self.tools],
    before any tool runs; at the endpoint the reply has status 200 and a
    stream that ends without a single chunk: no frame, no sentinel. *)
Theorem unhashable_tool_name_aborts_stream `{C : Collaborators}
    (env : Env) (request : MCPRequest) (accept : option string) (sid : string)
    (self : MCPServer) (us : US) (s : MCPSession)
    (p : list (string * json)) (v : json) :
  params request = Some p ->
  PyDict.get "name" p = Some v ->
  (exists x l, v = JArr (x :: l)) \/ (exists kv l, v = JObj (kv :: l)) ->
  exists msg,
    handle_tools_call self request us = (inl (TypeError msg), us) /\
    (_validate_accept_header accept = true ->
     method request = "tools/call" ->
     sid <> EmptyString ->
     sessions self !! sid = Some s ->
     ready_for_operation s = true ->
     let h := handle_mcp_request env request accept (Some sid) self us in
     status_code (reply h) = 200 /\
     content (reply h) = Streaming [] (Some (TypeError msg)) /\
     user_service h = us).
Proof.
  intros Hp Hn Hv.
  assert (Hcall : forall self0 : MCPServer, exists msg,
            handle_tools_call self0 request us = (inl (TypeError msg), us) /\
            key_in v (tools self0) = inl (TypeError msg)).
  { intros self0. unfold handle_tools_call. rewrite Hp.
    destruct p as [|kv p]; [discriminate Hn |].
    unfold get_json. rewrite Hn.
    destruct Hv as [(x & l & ->) | (x & l & ->)]; cbn; eexists; split; reflexivity. }
  destruct (Hcall self) as (msg & Hc & Hk). exists msg. split; [assumption |].
  intros Ha Hm Hne Hs Hr h. subst h.
  rewrite (branch_operation _ _ _ _ _ _ sid s) by (auto; rewrite Hm; discriminate).
  rewrite Hm. cbn [String.eqb Ascii.eqb Bool.eqb reply user_service].
  unfold StreamingResponse, tools_call_coroutine. cbn [_create_sse_stream await].
  destruct (Hcall (with_sessions
                     (<[sid := set_last_activity (loop_time env) s]> (sessions self))
                     self)) as (msg' & Hc' & Hk').
  rewrite Hc'. cbn [tools with_sessions] in Hk'.
  assert (msg' = msg) by congruence. subst msg'.
  repeat split.
Qed.

Lemma unhashable_tool_name_aborts_stream_witness :
  exists msg,
    handle_tools_call Fixture.operating
      (mkRequest (JNum 1) "tools/call" (Some [("name", JArr [JStr "add_user"])]))
      Fixture.untouched
    = (inl (TypeError msg), Fixture.untouched).
Proof.
  destruct (unhashable_tool_name_aborts_stream Fixture.env
              (mkRequest (JNum 1) "tools/call" (Some [("name", JArr [JStr "add_user"])]))
              Fixture.accept Fixture.sid Fixture.operating Fixture.untouched
              (mkSession Fixture.sid true 7 7)
              [("name", JArr [JStr "add_user"])] (JArr [JStr "add_user"])
              eq_refl eq_refl
              (or_introl (ex_intro _ (JStr "add_user") (ex_intro _ [] eq_refl))))
    as (msg & H & _).
  exists msg. exact H.
Defined.

(** ** The registry *)

Section Registry.
Context `{C : Collaborators}.

Lemma get_set_eq {V : Type} (k : string) (v : V) (d : list (string * V)) :
  PyDict.get k (PyDict.set k v d) = Some v.
Proof.
  induction d as [|[k' v'] d IH]; simpl.
  - now rewrite String.eqb_refl.
  - destruct (String.eqb k k') eqn:E; simpl; rewrite ?String.eqb_refl, ?E; auto.
Qed.

Lemma get_set_ne {V : Type} (k k0 : string) (v : V) (d : list (string * V)) :
  k0 <> k -> PyDict.get k0 (PyDict.set k v d) = PyDict.get k0 d.
Proof.
  intros Hne. apply String.eqb_neq in Hne.
  induction d as [|[k' v'] d IH]; simpl.
  - now rewrite Hne.
  - destruct (String.eqb k k') eqn:E; simpl.
    + apply String.eqb_eq in E. subst k'. now rewrite Hne.
    + now rewrite IH.
Qed.

Lemma keys_set {V : Type} (k : string) (v : V) (d : list (string * V)) :
  map fst (PyDict.set k v d)
  = if PyDict.mem k d then map fst d else (map fst d ++ [k])%list.
Proof.
  unfold PyDict.mem. induction d as [|[k' v'] d IH]; simpl; [reflexivity |].
  destruct (String.eqb k k') eqn:E; simpl.
  - apply String.eqb_eq in E. now subst k'.
  - rewrite IH. now destruct (PyDict.get k d).
Qed.

Lemma mem_in_keys {V : Type} (k : string) (d : list (string * V)) :
  PyDict.mem k d = true <-> In k (map fst d).
Proof.
  unfold PyDict.mem. induction d as [|[k' v'] d IH]; simpl.
  - split; [discriminate | intros []].
  - destruct (String.eqb_spec k k') as [-> | Hne].
    + split; auto.
    + split; [intros H; right; now apply IH |].
      intros [Heq | Hin]; [congruence | now apply IH].
Qed.

(** [d[k] = v] keeps the keys of a dict distinct. *)
Lemma set_keeps_keys_distinct {V : Type} (k : string) (v : V) (d : list (string * V)) :
  NoDup (map fst d) -> NoDup (map fst (PyDict.set k v d)).
Proof.
  intros Hd. rewrite keys_set. destruct (PyDict.mem k d) eqn:E; [assumption |].
  apply NoDup_app; split; [assumption |]. split.
  - intros x Hx Hk. apply list_elem_of_In in Hx, Hk. destruct Hk as [<- | []].
    apply mem_in_keys in Hx. congruence.
  - apply NoDup_singleton.
Qed.

End Registry.

Section RegistryFacts.
Context `{C : Collaborators}.

Lemma get_set {V : Type} (k k0 : string) (v : V) (d : list (string * V)) :
  PyDict.get k0 (PyDict.set k v d)
  = if String.eqb k0 k then Some v else PyDict.get k0 d.
Proof.
  destruct (String.eqb_spec k0 k) as [-> | Hne];
    [apply get_set_eq | now apply get_set_ne].
Qed.

Lemma set_nil {V : Type} (k : string) (v : V) : PyDict.set k v [] = [(k, v)].
Proof. reflexivity. Qed.

Lemma set_cons {V : Type} (k k' : string) (v v' : V) (d : list (string * V)) :
  PyDict.set k v ((k', v') :: d)
  = if String.eqb k k' then (k, v) :: d else (k', v') :: PyDict.set k v d.
Proof. reflexivity. Qed.

Lemma register_tools_unfolded :
  _register_tools
  = PyDict.set "delete_users" DeleteUserTool
      (PyDict.set (name UpdateUserTool) UpdateUserTool
         [("get_user_by_id", GetUserByIdTool); ("search_users", SearchUsersTool);
          ("add_user", CreateUserTool)]).
Proof. reflexivity. Qed.

Lemma values_under_own_name (d : list (string * Tool US)) :
  (forall k tool, In (k, tool) d -> name tool = k) ->
  map name (PyDict.values d) = map fst d.
Proof.
  unfold PyDict.values. induction d as [|[k tool] d IH]; intros H; simpl.
  - reflexivity.
  - rewrite (H k tool) by now left. rewrite IH; [reflexivity |].
    intros k0 t0 Hin. apply H. now right.
Qed.

Lemma set_keeps_own_name (tool : Tool US) (d : list (string * Tool US)) :
  (forall k t, In (k, t) d -> name t = k) ->
  forall k t, In (k, t) (PyDict.set (name tool) tool d) -> name t = k.
Proof.
  induction d as [|[k' t'] d IH]; intros H k t; simpl.
  - intros [[= <- <-] | []]. reflexivity.
  - destruct (String.eqb (name tool) k').
    + intros [[= <- <-] | Hin]; [reflexivity | apply H; now right].
    + intros [[= <- <-] | Hin]; [apply H; now left |].
      apply IH; [| assumption]. intros k0 t0 Hin0. apply H. now right.
Qed.

Lemma register_tools_own_name (k : string) (tool : Tool US) :
  In (k, tool) _register_tools -> name tool = k.
Proof.
  rewrite register_tools_unfolded. revert k tool.
  apply (set_keeps_own_name DeleteUserTool), (set_keeps_own_name UpdateUserTool).
  intros k tool [[= <- <-] | [[= <- <-] | [[= <- <-] | []]]]; reflexivity.
Qed.

End RegistryFacts.

(** X13.  Looking a name up in the registry gives the tool registered last
    under it: [DeleteUserTool] for delete_users whatever the name of
    [UpdateUserTool] is, [UpdateUserTool] for its own name otherwise, and an
    earlier tool only when [UpdateUserTool] has not taken its name.  The keys
    of the registry are distinct, and they are the names of the tools that
    [tools/list] lists, in the same order. *)
Theorem registry_lookup `{C : Collaborators} (k : string) :
  PyDict.get k _register_tools
  = (if String.eqb k "delete_users" then Some DeleteUserTool
     else if String.eqb k (name UpdateUserTool) then Some UpdateUserTool
     else if String.eqb k "get_user_by_id" then Some GetUserByIdTool
     else if String.eqb k "search_users" then Some SearchUsersTool
     else if String.eqb k "add_user" then Some CreateUserTool
     else None) /\
  NoDup (map fst _register_tools) /\
  map name (PyDict.values _register_tools) = map fst _register_tools.
Proof.
  split; [| split].
  - rewrite register_tools_unfolded, !get_set. reflexivity.
  - rewrite register_tools_unfolded. do 2 apply set_keeps_keys_distinct.
    apply (bool_decide_unpack _). vm_compute. exact I.
  - apply values_under_own_name. intros k0 tool. apply register_tools_own_name.
Qed.

(** X14.  On a server reached from startup, [tools/list] on a ready session
    gets status 200 and a stream of one frame and the sentinel; the frame
    carries the request's id and, under [tools], the registry's tools in
    registration order.  No tool runs.  When the name of [UpdateUserTool] is
    none of the other four, these are the five tools, in the order of
    [_register_tools]. *)
Theorem tools_list_reply `{C : Collaborators}
    (calls : list Call) (us0 : US) (env : Env) (request : MCPRequest)
    (accept : option string) (sid : string) (s : MCPSession) :
  let self := fst (run calls MCPServer_init us0) in
  let us := snd (run calls MCPServer_init us0) in
  _validate_accept_header accept = true ->
  method request = "tools/list" ->
  sessions self !! sid = Some s ->
  ready_for_operation s = true ->
  let h := handle_mcp_request env request accept (Some sid) self us in
  reply h
  = {| status_code := 200;
       content :=
         Streaming
           [frame (Model {| resp_id := req_id request;
                            result :=
                              Some (JObj [("tools",
                                            JArr (map to_mcp_tool
                                                    (PyDict.values _register_tools)))]);
                            error := None |});
            DONE] None;
       media_type := Some "text/event-stream";
       headers := [("Cache-Control", Some "no-cache");
                   ("Connection", Some "keep-alive");
                   (MCP_SESSION_ID_HEADER, Some sid)] |} /\
  user_service h = us /\
  (~ In (name UpdateUserTool)
        ["get_user_by_id"; "search_users"; "add_user"; "delete_users"] ->
   PyDict.values _register_tools
   = [GetUserByIdTool; SearchUsersTool; CreateUserTool; UpdateUserTool;
      DeleteUserTool]).
Proof.
  intros self us Ha Hm Hl Hr h.
  assert (Hok : server_ok self) by apply run_keeps_server_ok, init_server_ok.
  destruct Hok as (_ & Ht & Hok). destruct (Hok _ _ Hl) as [_ [Hlen _]].
  assert (Hne : sid <> EmptyString) by (intros ->; discriminate Hlen).
  subst h. rewrite (branch_operation _ _ _ _ _ _ sid s)
    by (auto; rewrite Hm; discriminate).
  rewrite Hm. cbn [String.eqb Ascii.eqb Bool.eqb].
  rewrite stream_of_object. cbn [reply user_service fst snd].
  unfold handle_tools_list. cbn [tools with_sessions]. rewrite Ht.
  split; [reflexivity |]. split; [reflexivity |].
  intros Hnew. rewrite register_tools_unfolded.
  assert (H1 : String.eqb (name UpdateUserTool) "get_user_by_id" = false)
    by (apply String.eqb_neq; intros He; apply Hnew; rewrite He; simpl; auto).
  assert (H2 : String.eqb (name UpdateUserTool) "search_users" = false)
    by (apply String.eqb_neq; intros He; apply Hnew; rewrite He; simpl; auto).
  assert (H3 : String.eqb (name UpdateUserTool) "add_user" = false)
    by (apply String.eqb_neq; intros He; apply Hnew; rewrite He; simpl; auto).
  assert (H4 : String.eqb "delete_users" (name UpdateUserTool) = false)
    by (apply String.eqb_neq; intros He; apply Hnew; rewrite <- He; simpl; auto 6).
  rewrite !set_cons, H1, H2, H3, set_nil, !set_cons, H4, set_nil. reflexivity.
Qed.

Lemma tools_list_reply_witness :
  user_service (handle_mcp_request Fixture.env (mkRequest (JNum 1) "tools/list" None)
                  Fixture.accept (Some Fixture.sid)
                  Fixture.operating (snd (run
                    [Fixture.call "initialize" None None;
                     Fixture.call "notifications/initialized" None (Some Fixture.sid)]
                    Fixture.fresh Fixture.untouched)))
  = snd (run [Fixture.call "initialize" None None;
              Fixture.call "notifications/initialized" None (Some Fixture.sid)]
           Fixture.fresh Fixture.untouched).
Proof.
  assert (Hl : sessions Fixture.operating !! Fixture.sid
               = Some (mkSession Fixture.sid true 7 7))
    by (vm_compute; reflexivity).
  exact (proj1 (proj2 (tools_list_reply
                         [Fixture.call "initialize" None None;
                          Fixture.call "notifications/initialized" None (Some Fixture.sid)]
                         Fixture.untouched Fixture.env
                         (mkRequest (JNum 1) "tools/list" None) Fixture.accept
                         Fixture.sid (mkSession Fixture.sid true 7 7)
                         eq_refl eq_refl Hl eq_refl))).
Defined.

(** ** The Accept check, without the splitting *)

Section AcceptFacts.

Lemma lower_char_isspace (c : ascii) :
  PyStr.isspace (PyStr.lower_char c) = PyStr.isspace c.
Proof. destruct c as [[] [] [] [] [] [] [] []]; reflexivity. Qed.

Lemma lower_char_comma (c : ascii) :
  Ascii.eqb (PyStr.lower_char c) "," = Ascii.eqb c ",".
Proof. destruct c as [[] [] [] [] [] [] [] []]; reflexivity. Qed.

Lemma lower_char_idempotent (c : ascii) :
  PyStr.lower_char (PyStr.lower_char c) = PyStr.lower_char c.
Proof. destruct c as [[] [] [] [] [] [] [] []]; reflexivity. Qed.

Lemma lower_idempotent (s : string) : PyStr.lower (PyStr.lower s) = PyStr.lower s.
Proof.
  induction s as [|c s IH]; simpl; [reflexivity |].
  now rewrite lower_char_idempotent, IH.
Qed.

Lemma split_nonempty (sep : ascii) (s : string) : PyStr.split sep s <> [].
Proof.
  induction s as [|c s IH]; simpl; [discriminate |].
  destruct (Ascii.eqb c sep); [discriminate |].
  destruct (PyStr.split sep s); [contradiction | discriminate].
Qed.

Lemma split_lower (h : string) :
  PyStr.split "," (PyStr.lower h) = map PyStr.lower (PyStr.split "," h).
Proof.
  induction h as [|c h IH]; simpl; [reflexivity |].
  rewrite lower_char_comma, IH.
  destruct (Ascii.eqb c ","); [reflexivity |].
  now destruct (PyStr.split "," h).
Qed.

Lemma lstrip_lower (t : string) :
  PyStr.lstrip (PyStr.lower t) = PyStr.lower (PyStr.lstrip t).
Proof.
  induction t as [|c t IH]; simpl; [reflexivity |].
  rewrite lower_char_isspace. now destruct (PyStr.isspace c).
Qed.

Lemma rstrip_lower (t : string) :
  PyStr.rstrip (PyStr.lower t) = PyStr.lower (PyStr.rstrip t).
Proof.
  induction t as [|c t IH]; simpl; [reflexivity |].
  rewrite IH, lower_char_isspace.
  destruct (PyStr.rstrip t); simpl; [now destruct (PyStr.isspace c) | reflexivity].
Qed.

Lemma strip_lower (t : string) :
  PyStr.strip (PyStr.lower t) = PyStr.lower (PyStr.strip t).
Proof. unfold PyStr.strip. now rewrite lstrip_lower, rstrip_lower. Qed.

(** A needle that starts with no whitespace is found in [lstrip t] exactly
    when it is found in [t]. *)
Lemma contains_lstrip (a : ascii) (m t : string) :
  PyStr.isspace a = false ->
  PyStr.contains (String a m) (PyStr.lstrip t) = PyStr.contains (String a m) t.
Proof.
  intros Ha. induction t as [|c t IH]; [reflexivity |].
  cbn [PyStr.lstrip]. destruct (PyStr.isspace c) eqn:Hc; [| reflexivity].
  rewrite IH. cbn [PyStr.contains PyStr.startswith].
  destruct (Ascii.eqb_spec a c) as [-> | Hne]; [congruence | reflexivity].
Qed.

(** A needle that ends with no whitespace starts [rstrip t] exactly when it
    starts [t]. *)
Lemma startswith_rstrip (m : string) :
  m <> EmptyString -> PyStr.rstrip m = m ->
  forall t, PyStr.startswith m (PyStr.rstrip t) = PyStr.startswith m t.
Proof.
  induction m as [|a m IH]; [congruence |]. intros _ Hm t.
  destruct t as [|c t]; [reflexivity |].
  cbn [PyStr.rstrip] in Hm. cbn [PyStr.rstrip PyStr.startswith].
  destruct m as [|b m].
  - cbn [PyStr.rstrip] in Hm.
    destruct (PyStr.isspace a) eqn:Ha; [discriminate Hm |].
    destruct (PyStr.rstrip t) as [|x r].
    + destruct (PyStr.isspace c) eqn:Hc; cbn [PyStr.startswith].
      * destruct (Ascii.eqb_spec a c) as [-> | Hne]; [congruence | reflexivity].
      * now rewrite !andb_true_r.
    + cbn [PyStr.startswith]. now rewrite !andb_true_r.
  - assert (Hm' : PyStr.rstrip (String b m) = String b m).
    { destruct (PyStr.rstrip (String b m)) as [|x r] eqn:E.
      - destruct (PyStr.isspace a); discriminate Hm.
      - injection Hm as Hx Hr. congruence. }
    specialize (IH ltac:(discriminate) Hm' t).
    destruct (PyStr.rstrip t) as [|x r] eqn:Et.
    + destruct (PyStr.isspace c); cbn [PyStr.startswith] in *;
        rewrite <- IH; destruct t; now rewrite ?andb_false_r.
    + change (PyStr.startswith (String a (String b m)) (String c (String x r)))
        with (Ascii.eqb a c && PyStr.startswith (String b m) (String x r)).
      now rewrite IH.
Qed.

Lemma contains_rstrip (m t : string) :
  m <> EmptyString -> PyStr.rstrip m = m ->
  PyStr.contains m (PyStr.rstrip t) = PyStr.contains m t.
Proof.
  intros Hne Hm. induction t as [|c t IH]; [reflexivity |].
  cbn [PyStr.contains]. rewrite <- IH, <- (startswith_rstrip m Hne Hm (String c t)).
  cbn [PyStr.rstrip]. destruct (PyStr.rstrip t) as [|x r] eqn:Et.
  - destruct (PyStr.isspace c); cbn [PyStr.contains];
      rewrite ?orb_false_r, ?orb_diag; reflexivity.
  - reflexivity.
Qed.

Lemma startswith_head_segment (m r hd : string) (tl : list string) :
  PyStr.split "," m = [m] ->
  PyStr.split "," r = hd :: tl ->
  PyStr.startswith m hd = PyStr.startswith m r.
Proof.
  revert r hd tl. induction m as [|b m IH]; intros r hd tl Hm Hr; [reflexivity |].
  cbn [PyStr.split] in Hm. destruct (Ascii.eqb b ",") eqn:Hb; [discriminate Hm |].
  assert (Hm' : PyStr.split "," m = [m]).
  { destruct (PyStr.split "," m) as [|x l] eqn:E;
      [now destruct (split_nonempty "," m) |].
    injection Hm as Hx Hl. now subst. }
  destruct r as [|x r]; cbn [PyStr.split] in Hr.
  - now injection Hr as <- <-.
  - destruct (Ascii.eqb x ",") eqn:Hx.
    + injection Hr as <- <-. cbn [PyStr.startswith].
      apply Ascii.eqb_eq in Hx. subst x. now rewrite Hb.
    + destruct (PyStr.split "," r) as [|hd' tl'] eqn:E; injection Hr as <- <-.
      * now destruct (split_nonempty "," r).
      * cbn [PyStr.startswith]. now rewrite (IH r hd' tl' Hm' E).
Qed.

(** A needle without comma is in some comma-separated element of [h] exactly
    when it is in [h]. *)
Lemma contains_split (m h : string) :
  m <> EmptyString -> PyStr.split "," m = [m] ->
  existsb (PyStr.contains m) (PyStr.split "," h) = PyStr.contains m h.
Proof.
  intros Hne Hm. destruct m as [|a m]; [congruence |].
  assert (Ha : Ascii.eqb a "," = false).
  { cbn [PyStr.split] in Hm. destruct (Ascii.eqb a ","); [discriminate Hm | reflexivity]. }
  induction h as [|c h IH]; [reflexivity |].
  cbn [PyStr.split]. destruct (Ascii.eqb c ",") eqn:Hc.
  - cbn [existsb]. rewrite IH. cbn [PyStr.contains PyStr.startswith orb].
    apply Ascii.eqb_eq in Hc. subst c. now rewrite Ha.
  - destruct (PyStr.split "," h) as [|hd tl] eqn:E;
      [now destruct (split_nonempty "," h) |].
    cbn [existsb] in *. cbn [PyStr.contains]. rewrite <- IH.
    rewrite (startswith_head_segment (String a m) (String c h) (String c hd) tl Hm).
    + now rewrite orb_assoc.
    + cbn [PyStr.split]. now rewrite Hc, E.
Qed.

Lemma existsb_map {A B : Type} (f : B -> bool) (g : A -> B) (l : list A) :
  existsb f (map g l) = existsb (fun x => f (g x)) l.
Proof. induction l as [|x l IH]; simpl; [reflexivity | now rewrite IH]. Qed.

Lemma existsb_ext_eq {A : Type} (f g : A -> bool) (l : list A) :
  (forall x, f x = g x) -> existsb f l = existsb g l.
Proof. intros H. induction l as [|x l IH]; simpl; [reflexivity | now rewrite H, IH]. Qed.

Lemma marker_in_elements (a : ascii) (m h : string) :
  PyStr.isspace a = false ->
  PyStr.rstrip (String a m) = String a m ->
  PyStr.split "," (String a m) = [String a m] ->
  existsb (PyStr.contains (String a m))
    (map (fun t => PyStr.lower (PyStr.strip t)) (PyStr.split "," h))
  = PyStr.contains (String a m) (PyStr.lower h).
Proof.
  intros Ha Hr Hs.
  rewrite <- (contains_split (String a m) (PyStr.lower h)) by (discriminate || assumption).
  rewrite split_lower, !existsb_map. apply existsb_ext_eq. intros t.
  rewrite <- strip_lower. unfold PyStr.strip.
  rewrite contains_rstrip by (discriminate || assumption).
  now apply contains_lstrip.
Qed.

End AcceptFacts.

(** X15.  The Accept check comes down to two substring tests on the
    lowercased header: splitting on commas and trimming change nothing,
    because neither marker holds a comma or starts or ends with whitespace.
    So the check ignores case, and a header that passes keeps passing
    whatever is written around the two markers. *)
Theorem accept_header_is_two_substring_tests (accept : option string) :
  _validate_accept_header accept
  = match accept with
    | None => false
    | Some h =>
        PyStr.contains "application/json" (PyStr.lower h)
        && PyStr.contains "text/event-stream" (PyStr.lower h)
    end /\
  (forall h, accept = Some h ->
     _validate_accept_header (Some (PyStr.lower h)) = _validate_accept_header accept).
Proof.
  assert (Hmain : forall h,
            _validate_accept_header (Some h)
            = PyStr.contains "application/json" (PyStr.lower h)
              && PyStr.contains "text/event-stream" (PyStr.lower h)).
  { intros h. destruct h as [|c h]; [reflexivity |].
    unfold _validate_accept_header. cbn [PyStr.truthy negb].
    now rewrite !marker_in_elements by reflexivity. }
  split.
  - destruct accept as [h|]; [apply Hmain | reflexivity].
  - intros h ->. now rewrite !Hmain, lower_idempotent.
Qed.

Lemma accept_header_is_two_substring_tests_witness :
  _validate_accept_header (Some (PyStr.lower "Application/JSON;q=1 ,TEXT/Event-Stream"))
  = _validate_accept_header (Some "Application/JSON;q=1 ,TEXT/Event-Stream").
Proof.
  exact (proj2 (accept_header_is_two_substring_tests
                  (Some "Application/JSON;q=1 ,TEXT/Event-Stream")) _ eq_refl).
Defined.

(** ** The tools behind tools/call *)

Section ToolRuns.
Context `{C : Collaborators}.

(** [handle_tools_call] on a name that is registered: the tool runs on the
    [arguments] of the request, or on the empty dict when there are none. *)
Lemma tools_call_runs_tool (self : MCPServer) (request : MCPRequest) (us : US)
    (p : list (string * json)) (n : string) (tool : Tool US) :
  params request = Some p ->
  PyDict.get "name" p = Some (JStr n) ->
  n <> EmptyString ->
  PyDict.get n (tools self) = Some tool ->
  handle_tools_call self request us
  = match execute tool (get_default "arguments" (JObj []) p) us with
    | (Returns text, us') =>
        (inr {| resp_id := req_id request;
                result := Some (JObj [("content", text_content text)]);
                error := None |}, us')
    | (Raises msg, us') =>
        (inr {| resp_id := req_id request;
                result :=
                  Some (JObj [("content",
                                text_content ("Tool execution error: " +:+ msg));
                              ("isError", JBool true)]);
                error := None |}, us')
    end.
Proof.
  intros Hp Hn Hne Ht. unfold handle_tools_call. rewrite Hp.
  destruct p as [|kv p]; [discriminate Hn |].
  unfold get_json. rewrite Hn. cbn [truthy].
  destruct n as [|c n]; [congruence |]. cbn [PyStr.truthy negb key_in getitem].
  rewrite (get_mem _ _ _ Ht), Ht. reflexivity.
Qed.

Lemma known_tool_is_registered (tool : Tool US) :
  In tool [GetUserByIdTool; SearchUsersTool; CreateUserTool; DeleteUserTool] ->
  name tool = "delete_users" \/ name UpdateUserTool <> name tool ->
  PyDict.get (name tool) _register_tools = Some tool /\ name tool <> EmptyString.
Proof.
  intros Hin Hfree.
  assert (Hd : name tool = "delete_users" -> tool = DeleteUserTool).
  { destruct Hin as [<- | [<- | [<- | [<- | []]]]]; try discriminate. reflexivity. }
  destruct (registry_lookup (name tool)) as [-> _].
  destruct (String.eqb_spec (name tool) "delete_users") as [He | He].
  - rewrite (Hd He). split; [reflexivity | discriminate].
  - destruct Hfree as [Hfree | Hfree]; [contradiction |].
    destruct (String.eqb_spec (name tool) (name UpdateUserTool)) as [Hu | Hu];
      [congruence |].
    destruct Hin as [<- | [<- | [<- | [<- | []]]]]; split;
      try reflexivity; try discriminate. contradiction.
Qed.

End ToolRuns.

(** X16.  A [tools/call] that names one of the four tools whose source is at
    hand (and whose name [UpdateUserTool] has not taken; it cannot take
    delete_users, registered after it) never gets [isError]: whatever goes
    wrong inside the tool comes back as the text of an ordinary result. *)
Theorem known_tools_give_plain_results `{C : Collaborators}
    (self : MCPServer) (request : MCPRequest) (us : US)
    (p : list (string * json)) (tool : Tool US) :
  tools self = _register_tools ->
  params request = Some p ->
  PyDict.get "name" p = Some (JStr (name tool)) ->
  In tool [GetUserByIdTool; SearchUsersTool; CreateUserTool; DeleteUserTool] ->
  name tool = "delete_users" \/ name UpdateUserTool <> name tool ->
  exists text us',
    execute tool (get_default "arguments" (JObj []) p) us = (Returns text, us') /\
    handle_tools_call self request us
    = (inr {| resp_id := req_id request;
              result :=
                Some (JObj [("content",
                              JArr [JObj [("type", JStr "text"); ("text", JStr text)]])]);
              error := None |}, us').
Proof.
  intros Ht Hp Hn Hin Hfree.
  destruct (known_tool_is_registered tool Hin Hfree) as [Hget Hne].
  rewrite <- Ht in Hget.
  rewrite (tools_call_runs_tool self request us p (name tool) tool Hp Hn Hne Hget).
  destruct (known_tools_never_raise tool (get_default "arguments" (JObj []) p) us Hin)
    as [text Htext].
  destruct (execute tool (get_default "arguments" (JObj []) p) us) as [out us'].
  cbn [fst] in Htext. subst out. now exists text, us'.
Qed.

Lemma known_tools_give_plain_results_witness :
  exists text us',
    handle_tools_call Fixture.operating
      (mkRequest (JNum 1) "tools/call" (Some [("name", JStr "add_user")]))
      Fixture.untouched
    = (inr {| resp_id := JNum 1;
              result :=
                Some (JObj [("content",
                              JArr [JObj [("type", JStr "text"); ("text", JStr text)]])]);
              error := None |}, us').
Proof.
  assert (Ht : tools Fixture.operating = _register_tools)
    by (vm_compute; reflexivity).
  assert (Hfree : name UpdateUserTool <> name CreateUserTool) by discriminate.
  destruct (known_tools_give_plain_results Fixture.operating
              (mkRequest (JNum 1) "tools/call" (Some [("name", JStr "add_user")]))
              Fixture.untouched [("name", JStr "add_user")] CreateUserTool
              Ht eq_refl eq_refl
              (or_intror (or_intror (or_introl eq_refl)))
              (or_intror Hfree))
    as (text & us' & _ & H).
  exists text, us'. exact H.
Defined.

Section ToolBodyRuns.
Context `{U : UserClient}.

Lemma run_registered_tool (self : MCPServer (C := tool_collaborators))
    (request : MCPRequest) (us : Service) (p : list (string * json))
    (tool : Tool Service) :
  tools self = _register_tools (C := tool_collaborators) ->
  params request = Some p ->
  PyDict.get "name" p = Some (JStr (name tool)) ->
  In tool [GetUserByIdTool (C := tool_collaborators); SearchUsersTool;
           CreateUserTool; DeleteUserTool] ->
  name tool = "delete_users" \/ name update_user_tool <> name tool ->
  handle_tools_call self request us
  = match execute tool (get_default "arguments" (JObj []) p) us with
    | (Returns text, us') =>
        (inr {| resp_id := req_id request;
                result := Some (JObj [("content", text_content text)]);
                error := None |}, us')
    | (Raises msg, us') =>
        (inr {| resp_id := req_id request;
                result :=
                  Some (JObj [("content",
                                text_content ("Tool execution error: " +:+ msg));
                              ("isError", JBool true)]);
                error := None |}, us')
    end.
Proof.
  intros Ht Hp Hn Hin Hfree.
  destruct (known_tool_is_registered (C := tool_collaborators) tool Hin Hfree)
    as [Hget Hne].
  rewrite <- Ht in Hget.
  exact (tools_call_runs_tool self request us p (name tool) tool Hp Hn Hne Hget).
Qed.

End ToolBodyRuns.

(** X17.  [delete_users] called without an id (no [arguments] in the request,
    which stands for the empty dict, or a dict without the key) gets an
    ordinary result whose text is "Error while deleting user by id: 'id'":
    the [KeyError] of the subscript, caught in the tool.  The user client is
    not called.  [get_user_by_id] does the same with its own prefix, unless
    [UpdateUserTool] has taken its name. *)
Theorem id_tools_without_id `{U : UserClient}
    (self : MCPServer (C := tool_collaborators)) (request : MCPRequest)
    (us : Service) (p : list (string * json)) (n prefix : string) :
  tools self = _register_tools (C := tool_collaborators) ->
  params request = Some p ->
  PyDict.get "name" p = Some (JStr n) ->
  PyDict.get "arguments" p = None \/
  (exists d, PyDict.get "arguments" p = Some (JObj d) /\ PyDict.get "id" d = None) ->
  (n = "delete_users" /\ prefix = "Error while deleting user by id") \/
  (n = "get_user_by_id" /\ name update_user_tool <> "get_user_by_id" /\
   prefix = "Error while retrieving user by id") ->
  handle_tools_call self request us
  = (inr {| resp_id := req_id request;
            result :=
              Some (JObj [("content",
                            JArr [JObj [("type", JStr "text");
                                        ("text", JStr (prefix +:+ ": 'id'"))]])]);
            error := None |}, us).
Proof.
  intros Ht Hp Hn Hargs Hwhich.
  assert (Hid : subscript_id (get_default "arguments" (JObj []) p) = inl "'id'").
  { unfold get_default.
    destruct Hargs as [-> | (d & -> & Hd)]; [reflexivity |].
    unfold subscript_id. now rewrite Hd. }
  destruct Hwhich as [(-> & ->) | (-> & Hfree & ->)].
  - rewrite (run_registered_tool self request us p
            (DeleteUserTool (C := tool_collaborators)) Ht Hp Hn)
      by (simpl; auto).
    cbn [execute DeleteUserTool]. unfold guarded.
    cbn [delete_user tool_collaborators]. unfold delete_user_try.
    now rewrite Hid.
  - rewrite (run_registered_tool self request us p
            (GetUserByIdTool (C := tool_collaborators)) Ht Hp Hn)
      by (simpl; auto).
    cbn [execute GetUserByIdTool]. unfold guarded.
    cbn [get_user tool_collaborators]. unfold get_user_try.
    now rewrite Hid.
Qed.

Lemma id_tools_without_id_witness :
  handle_tools_call ClientFixture.server
    (ClientFixture.call_tool "delete_users" None) []
  = (inr {| resp_id := JNum 1;
            result :=
              Some (JObj [("content",
                            JArr [JObj [("type", JStr "text");
                                        ("text",
                                          JStr ("Error while deleting user by id"
                                                +:+ ": 'id'"))]])]);
            error := None |}, []).
Proof.
  apply (id_tools_without_id (U := ClientFixture.client) ClientFixture.server
           (ClientFixture.call_tool "delete_users" None) []
           [("name", JStr "delete_users")] "delete_users").
  - reflexivity.
  - reflexivity.
  - reflexivity.
  - left. reflexivity.
  - left. split; reflexivity.
Defined.

(** X18.  [delete_users] turns the id into an integer before it calls the
    user client: a JSON number goes as it is, [true] and [false] as 1 and 0;
    when [int()] refuses the value, its message comes back as text and the
    client is not called.  What the client returns is the text of the result;
    an exception of the client comes back as text with the tool's prefix,
    never as [isError]. *)
Theorem delete_users_converts_id `{U : UserClient}
    (self : MCPServer (C := tool_collaborators)) (request : MCPRequest)
    (us : Service) (p d : list (string * json)) (v : json) :
  tools self = _register_tools (C := tool_collaborators) ->
  params request = Some p ->
  PyDict.get "name" p = Some (JStr "delete_users") ->
  PyDict.get "arguments" p = Some (JObj d) ->
  PyDict.get "id" d = Some v ->
  let plain (text : string) :=
    {| resp_id := req_id request;
       result :=
         Some (JObj [("content",
                       JArr [JObj [("type", JStr "text"); ("text", JStr text)]])]);
       error := None |} in
  let converted :=
    match v with
    | JNum z => inr z
    | JBool true => inr 1
    | JBool false => inr 0
    | _ => int_of_other v
    end in
  handle_tools_call self request us
  = match converted with
    | inl msg => (inr (plain ("Error while deleting user by id: " +:+ msg)), us)
    | inr user_id =>
        match client_delete_user user_id us with
        | (Returns text, us') => (inr (plain text), us')
        | (Raises msg, us') =>
            (inr (plain ("Error while deleting user by id: " +:+ msg)), us')
        end
    end.
Proof.
  intros Ht Hp Hn Ha Hd plain converted.
  rewrite (run_registered_tool self request us p
            (DeleteUserTool (C := tool_collaborators)) Ht Hp Hn)
    by (simpl; auto).
  cbn [execute DeleteUserTool]. unfold guarded.
  cbn [delete_user tool_collaborators]. unfold delete_user_try, get_default.
  rewrite Ha. unfold subscript_id. rewrite Hd.
  change (py_int v) with converted.
  destruct converted as [msg | user_id]; [reflexivity |].
  now destruct (client_delete_user user_id us) as [[text | msg] us'].
Qed.

Lemma delete_users_converts_id_witness :
  handle_tools_call ClientFixture.server
    (ClientFixture.call_tool "delete_users" (Some (JObj [("id", JNum 2)]))) []
  = (inr {| resp_id := JNum 1;
            result :=
              Some (JObj [("content",
                            JArr [JObj [("type", JStr "text");
                                        ("text",
                                          JStr ("Error while deleting user by id: "
                                                +:+ "404"))]])]);
            error := None |}, [("delete_user", JNum 2)]).
Proof.
  exact (delete_users_converts_id (U := ClientFixture.client) ClientFixture.server
           (ClientFixture.call_tool "delete_users" (Some (JObj [("id", JNum 2)]))) []
           [("name", JStr "delete_users"); ("arguments", JObj [("id", JNum 2)])]
           [("id", JNum 2)] (JNum 2) eq_refl eq_refl eq_refl eq_refl eq_refl).
Defined.

(** X19.  [add_user] validates its arguments before anything else: when
    [UserCreate.model_validate] raises, the result is the text "Error while
    creating a new user: <message>" and the user client is not called; when
    it succeeds, the client gets the validated model.  (For a registry in
    which [UpdateUserTool] has not taken the name add_user.) *)
Theorem add_user_validates_first `{U : UserClient}
    (self : MCPServer (C := tool_collaborators)) (request : MCPRequest)
    (us : Service) (p : list (string * json)) :
  tools self = _register_tools (C := tool_collaborators) ->
  params request = Some p ->
  PyDict.get "name" p = Some (JStr "add_user") ->
  name update_user_tool <> "add_user" ->
  let plain (text : string) :=
    {| resp_id := req_id request;
       result :=
         Some (JObj [("content",
                       JArr [JObj [("type", JStr "text"); ("text", JStr text)]])]);
       error := None |} in
  handle_tools_call self request us
  = match UserCreate_model_validate (get_default "arguments" (JObj []) p) with
    | inl msg => (inr (plain ("Error while creating a new user: " +:+ msg)), us)
    | inr new_user =>
        match client_add_user new_user us with
        | (Returns text, us') => (inr (plain text), us')
        | (Raises msg, us') =>
            (inr (plain ("Error while creating a new user: " +:+ msg)), us')
        end
    end.
Proof.
  intros Ht Hp Hn Hfree plain.
  rewrite (run_registered_tool self request us p
            (CreateUserTool (C := tool_collaborators)) Ht Hp Hn)
    by (simpl; auto).
  cbn [execute CreateUserTool]. unfold guarded.
  cbn [add_user tool_collaborators]. unfold add_user_try.
  destruct (UserCreate_model_validate (get_default "arguments" (JObj []) p))
    as [msg | new_user]; [reflexivity |].
  now destruct (client_add_user new_user us) as [[text | msg] us'].
Qed.

Lemma add_user_validates_first_witness :
  handle_tools_call ClientFixture.server (ClientFixture.call_tool "add_user" None) []
  = (inr {| resp_id := JNum 1;
            result :=
              Some (JObj [("content",
                            JArr [JObj [("type", JStr "text");
                                        ("text",
                                          JStr ("Error while creating a new user: "
                                                +:+ "Field required"))]])]);
            error := None |}, []).
Proof.
  assert (Hfree : name (update_user_tool (UserClient := ClientFixture.client))
                  <> "add_user") by discriminate.
  exact (add_user_validates_first (U := ClientFixture.client) ClientFixture.server
           (ClientFixture.call_tool "add_user" None) []
           [("name", JStr "add_user")] eq_refl eq_refl eq_refl Hfree).
Defined.

(** ** Servers reached from startup *)

(** X20.  Whatever requests a server has handled since startup, its protocol
    version is still 2024-11-05, its registry is the one [_register_tools]
    built, every session is stored under its own [session_id], and the ids are
    32 hexadecimal digits (so no session sits under the empty id). *)
Theorem reachable_server_is_in_order `{C : Collaborators}
    (calls : list Call) (us0 : US) :
  let self := fst (run calls MCPServer_init us0) in
  protocol_version self = "2024-11-05" /\
  tools self = _register_tools /\
  (forall k s, sessions self !! k = Some s ->
     session_id s = k /\ String.length k = 32%nat /\
     forallb Uuid.is_hex (list_ascii_of_string k) = true) /\
  sessions self !! EmptyString = None.
Proof.
  intros self.
  destruct (run_keeps_server_ok calls MCPServer_init us0 init_server_ok)
    as (Hv & Ht & Hs).
  fold self in Hv, Ht, Hs.
  split; [assumption |]. split; [assumption |]. split.
  - intros k s Hl. destruct (Hs k s Hl) as (Hid & Hlen & Hhex). auto.
  - destruct (sessions self !! EmptyString) as [s|] eqn:E; [| reflexivity].
    destruct (Hs _ _ E) as (_ & Hlen & _). discriminate Hlen.
Qed.

Lemma reachable_server_is_in_order_witness :
  session_id (mkSession Fixture.sid true 7 7) = Fixture.sid /\
  String.length Fixture.sid = 32%nat /\
  forallb Uuid.is_hex (list_ascii_of_string Fixture.sid) = true.
Proof.
  refine (proj1 (proj2 (proj2 (reachable_server_is_in_order
                   [Fixture.call "initialize" None None;
                    Fixture.call "notifications/initialized" None (Some Fixture.sid)]
                   Fixture.untouched))) Fixture.sid _ _).
  vm_compute. reflexivity.
Defined.

(** X21.  On a server reached from startup, [_validate_protocol_version]
    answers 2024-11-05 whatever the client proposes, a value that is no
    string included: the one supported version is the server's own. *)
Theorem validate_protocol_version_is_constant `{C : Collaborators}
    (calls : list Call) (us0 : US) (client_version : json) :
  _validate_protocol_version (fst (run calls MCPServer_init us0)) client_version
  = JStr "2024-11-05".
Proof.
  destruct (run_keeps_server_ok calls MCPServer_init us0 init_server_ok)
    as (Hv & _ & _).
  unfold _validate_protocol_version. rewrite Hv.
  destruct client_version as [| b | z | v | l | l]; try reflexivity.
  cbn [existsb]. rewrite orb_false_r.
  destruct (String.eqb_spec v "2024-11-05") as [-> | Hne]; reflexivity.
Qed.

Section Clock.
Context `{C : Collaborators}.

(** Every session was created no later than it was last active, and was last
    active no later than [T]. *)
Lemma clock_step (env : Env) (request : MCPRequest)
    (accept mcp_session_id : option string) (self : MCPServer) (us : US) (T : Z) :
  (forall k s, sessions self !! k = Some s ->
     created_at s <= last_activity s /\ last_activity s <= T) ->
  T <= loop_time env ->
  forall k s,
    sessions (server (handle_mcp_request env request accept mcp_session_id self us)) !! k
    = Some s ->
    created_at s <= last_activity s /\ last_activity s <= loop_time env.
Proof.
  intros Hinv HT k s0.
  assert (Hold : sessions self !! k = Some s0 ->
                 created_at s0 <= last_activity s0 /\ last_activity s0 <= loop_time env).
  { intros Hl. destruct (Hinv _ _ Hl). lia. }
  destruct (handle_branch env request accept mcp_session_id self us);
    cbn [server]; try exact Hold; try unfold self';
    rewrite lookup_with_sessions;
    destruct (decide (sid = k)) as [<- | Hne]; try exact Hold;
    intros [= <-]; try subst s';
    cbn [MCPSession_init set_last_activity set_ready_for_operation
           created_at last_activity]; try lia;
    match goal with
    | Hl : sessions self !! _ = Some _ |- _ => destruct (Hinv _ _ Hl); lia
    end.
Qed.

Lemma later_calls (t : Z) (calls : list Call) :
  Forall (Z.le t) (map (fun c => loop_time (call_env c)) calls) ->
  Forall (fun c => t <= loop_time (call_env c)) calls.
Proof.
  induction calls as [|c calls IH]; simpl; intros H; [constructor |].
  inversion H; subst. constructor; auto.
Qed.

End Clock.

(** X22.  When the clock readings of the requests never go back, every
    session of a server reached from startup has [created_at] no later than
    [last_activity]. *)
Theorem activity_follows_creation `{C : Collaborators}
    (calls : list Call) (us0 : US) (k : string) (s : MCPSession) :
  StronglySorted Z.le (map (fun c => loop_time (call_env c)) calls) ->
  sessions (fst (run calls MCPServer_init us0)) !! k = Some s ->
  created_at s <= last_activity s.
Proof.
  intros Hsorted Hl.
  assert (Hgen : forall calls (self : MCPServer) (us : US) (T : Z),
            (forall k s, sessions self !! k = Some s ->
               created_at s <= last_activity s /\ last_activity s <= T) ->
            Forall (fun c => T <= loop_time (call_env c)) calls ->
            StronglySorted Z.le (map (fun c => loop_time (call_env c)) calls) ->
            forall k s, sessions (fst (run calls self us)) !! k = Some s ->
              created_at s <= last_activity s).
  { clear. induction calls as [|c calls IH]; intros self us T Hinv Hge Hs k s; simpl.
    - intros Hl. now destruct (Hinv _ _ Hl).
    - apply Forall_cons_1 in Hge as [Hc Hge].
      simpl in Hs. apply StronglySorted_inv in Hs as [Hs Hall].
      apply (IH _ _ (loop_time (call_env c))); [| | assumption].
      + unfold handle. now apply (clock_step _ _ _ _ _ _ T).
      + now apply later_calls. }
  destruct calls as [|c calls].
  - simpl in Hl. cbn [sessions MCPServer_init] in Hl.
    rewrite lookup_empty in Hl. discriminate.
  - apply (Hgen (c :: calls) MCPServer_init us0 (loop_time (call_env c))
             ltac:(intros k0 s1 H0; cbn [sessions MCPServer_init] in H0;
                   rewrite lookup_empty in H0; discriminate)
             ltac:(constructor; [lia |]; simpl in Hsorted;
                   apply StronglySorted_inv in Hsorted as [_ Hall];
                   now apply later_calls)
             Hsorted k s Hl).
Qed.

Lemma activity_follows_creation_witness :
  created_at (mkSession Fixture.sid true 7 7)
  <= last_activity (mkSession Fixture.sid true 7 7).
Proof.
  apply (activity_follows_creation
           [Fixture.call "initialize" None None;
            Fixture.call "notifications/initialized" None (Some Fixture.sid)]
           Fixture.untouched Fixture.sid).
  - repeat constructor; simpl; lia.
  - vm_compute. reflexivity.
Defined.

(** ** The client on what the server sends *)

Module ClientFacts.
Import Client.
Local Open Scope N_scope.

Lemma byte_of_ascii_to_N (c : ascii) : Byte.to_N (byte_of_ascii c) = N_of_ascii c.
Proof. destruct c as [[] [] [] [] [] [] [] []]; reflexivity. Qed.

(** The bytes of an encoded string, as numbers. *)
Lemma encode_to_N (s : string) : map Byte.to_N (PyStr.encode s) = lit s.
Proof.
  unfold PyStr.encode, lit, list_byte_of_string. rewrite map_map.
  apply map_ext. apply byte_of_ascii_to_N.
Qed.

Lemma lit_append (a b : string) : lit (a +:+ b) = (lit a ++ lit b)%list.
Proof.
  unfold lit. induction a as [|c a IH]; simpl; [reflexivity | now rewrite IH].
Qed.

(** Decoding goes through a concatenation whose first part decodes. *)
Lemma decode_app (a b : list N) (ca : list N) :
  decode a = Some ca ->
  decode (a ++ b)%list
  = match decode b with Some cb => Some (ca ++ cb)%list | None => None end.
Proof.
  remember (length a) as n eqn:Hn. revert a ca Hn.
  induction n as [n IH] using lt_wf_ind. intros a ca Hn.
  assert (Hrec : forall r cr, (length r < n)%nat -> decode r = Some cr ->
            decode (r ++ b)%list
            = match decode b with Some cb => Some (cr ++ cb)%list | None => None end).
  { intros r cr Hlt. now apply (IH (length r)). }
  destruct a as [|b0 r0]; cbn [decode app].
  - intros [= <-]. now destruct (decode b).
  - simpl in Hn.
    destruct (b0 <? 128).
    { destruct (decode r0) as [cps|] eqn:E; [| discriminate]. intros [= <-].
      rewrite (Hrec r0 cps) by (lia || assumption). now destruct (decode b). }
    destruct ((194 <=? b0) && (b0 <=? 223)).
    { destruct r0 as [|b1 r1]; [discriminate |]. cbn [app].
      destruct (continuation b1); [| discriminate].
      destruct (decode r1) as [cps|] eqn:E; [| discriminate]. intros [= <-].
      simpl in Hn. rewrite (Hrec r1 cps) by (lia || assumption).
      now destruct (decode b). }
    destruct ((224 <=? b0) && (b0 <=? 239)).
    { destruct r0 as [|b1 [|b2 r2]]; try discriminate. cbn [app].
      destruct (_ && continuation b2); [| discriminate].
      destruct (decode r2) as [cps|] eqn:E; [| discriminate]. intros [= <-].
      simpl in Hn. rewrite (Hrec r2 cps) by (lia || assumption).
      now destruct (decode b). }
    destruct ((240 <=? b0) && (b0 <=? 244)); [| discriminate].
    destruct r0 as [|b1 [|b2 [|b3 r3]]]; try discriminate. cbn [app].
    destruct (_ && continuation b3); [| discriminate].
    destruct (decode r3) as [cps|] eqn:E; [| discriminate]. intros [= <-].
    simpl in Hn. rewrite (Hrec r3 cps) by (lia || assumption).
    now destruct (decode b).
Qed.

(** Bytes below 128 decode to themselves. *)
Lemma decode_ascii (bs : list N) :
  Forall (fun b => b < 128) bs -> decode bs = Some bs.
Proof.
  induction bs as [|b bs IH]; intros H; [reflexivity |].
  inversion H as [|? ? Hb Hbs]; subst. cbn [decode].
  apply N.ltb_lt in Hb. rewrite Hb. now rewrite IH.
Qed.

Lemma rstrip_space_end (l : list N) (w : N) :
  isspace w = true -> rstrip (l ++ [w]) = rstrip l.
Proof.
  intros Hw. induction l as [|c l IH]; simpl.
  - now rewrite Hw.
  - now rewrite IH.
Qed.

Lemma rstrip_app (a b : list N) :
  rstrip b <> [] -> rstrip (a ++ b) = (a ++ rstrip b)%list.
Proof.
  intros Hb. induction a as [|c a IH]; simpl; [reflexivity |].
  rewrite IH. destruct (a ++ rstrip b)%list eqn:E; [| reflexivity].
  apply app_eq_nil in E as [_ E]. contradiction.
Qed.

Lemma lines_of_first (x r : list byte) (lf : byte) :
  Byte.to_N lf = 10 ->
  ~ In 10 (map Byte.to_N x) ->
  lines_of (x ++ lf :: r) = (x ++ [lf])%list :: lines_of r.
Proof.
  intros Hlf Hx. induction x as [|b x IH]; simpl.
  - now rewrite Hlf.
  - simpl in Hx. destruct (N.eqb_spec (Byte.to_N b) 10) as [He | He].
    + exfalso. apply Hx. now left.
    + rewrite IH; [reflexivity |]. intros Hin. apply Hx. now right.
Qed.

Lemma startswith_app (p s : list N) : startswith p (p ++ s) = true.
Proof. induction p as [|a p IH]; simpl; [reflexivity | now rewrite N.eqb_refl]. Qed.

Section Parse.
Variable loads : list N -> string + json.

(** A line made of [data: ], a payload and a line feed ends the parsing: the
    payload goes to [json.loads]. *)
Lemma parse_data_line (line : list byte) (rest : list (list byte))
    (payload_bytes : list N) (cps : list N) :
  map Byte.to_N line = (lit "data: " ++ payload_bytes ++ [10])%list ->
  decode payload_bytes = Some cps ->
  cps <> [] -> rstrip cps = cps -> cps <> lit "[DONE]" ->
  _parse_sse_response_streaming loads (line :: rest)
  = match loads cps with
    | inl msg => inl (JSONDecodeError msg)
    | inr data => inr data
    end.
Proof.
  intros Hline Hdec Hne Hstrip Hdone. cbn [_parse_sse_response_streaming].
  rewrite Hline.
  rewrite (decode_app (lit "data: ") _ (lit "data: ")) by reflexivity.
  rewrite (decode_app payload_bytes [10] cps Hdec).
  change (decode [10]) with (Some [10]). cbv beta iota zeta.
  assert (Hs : strip (lit "data: " ++ cps ++ [10]) = (lit "data: " ++ cps)%list).
  { unfold strip. change (lstrip (lit "data: " ++ cps ++ [10]))
      with (lit "data: " ++ cps ++ [10])%list.
    rewrite rstrip_app.
    - now rewrite rstrip_space_end, Hstrip by reflexivity.
    - rewrite rstrip_space_end, Hstrip by reflexivity. assumption. }
  rewrite Hs.
  change (lit "data: " ++ cps)%list with (100 :: 97 :: 116 :: 97 :: 58 :: 32 :: cps).
  change (startswith (lit ":") (100 :: 97 :: 116 :: 97 :: 58 :: 32 :: cps)) with false.
  change (startswith (lit "data: ") (100 :: 97 :: 116 :: 97 :: 58 :: 32 :: cps))
    with (startswith [] cps).
  change (drop 6 (100 :: 97 :: 116 :: 97 :: 58 :: 32 :: cps)) with cps.
  cbn [startswith orb]. rewrite (bool_decide_eq_true_2 _ Hdone). reflexivity.
Qed.

End Parse.

End ClientFacts.

(** X23.  The client's SSE parser, given the lines of the server's stream for
    one or more objects, returns what [json.loads] makes of the first
    object's payload; the frames after it and the sentinel are not read.
    This holds for a payload that is valid UTF-8 without a line feed, is not
    empty, does not end with whitespace and is not the text [DONE] in
    brackets, as every JSON text is.  Given the stream of no object, which is
    the sentinel alone, the parser raises the [RuntimeError] "No valid data
    found in SSE response". *)
Theorem client_reads_first_frame `{C : Collaborators}
    (loads : list N -> string + json)
    (o : object) (rest : list object) (us : US) (cps : list N) :
  (Client.decode (map Byte.to_N (PyStr.encode (payload o))) = Some cps ->
   ~ In 10%N (map Byte.to_N (PyStr.encode (payload o))) ->
   cps <> [] -> Client.rstrip cps = cps -> cps <> Client.lit "[DONE]" ->
   Client._parse_sse_response_streaming loads
     (Client.lines_of
        (List.concat (fst (fst (_create_sse_stream (map Object (o :: rest)) us)))))
   = match loads cps with
     | inl msg => inl (Client.JSONDecodeError msg)
     | inr data => inr data
     end) /\
  Client._parse_sse_response_streaming loads
    (Client.lines_of (List.concat (fst (fst (_create_sse_stream [] us)))))
  = inl (Client.RuntimeError "No valid data found in SSE response").
Proof.
  split; [| reflexivity].
  intros Hdec Hlf Hne Hstrip Hdone.
  rewrite (stream_of_awaited _ _ _ _ (await_all_objects (o :: rest) us)).
  cbn [fst map List.concat app].
  rewrite frame_bytes, !encode_append.
  change (PyStr.encode PyStr.LF) with ["010"%byte].
  rewrite <- !app_assoc. cbn [app].
  rewrite (app_assoc (PyStr.encode "data: ")).
  rewrite ClientFacts.lines_of_first; [| reflexivity |].
  - apply (ClientFacts.parse_data_line loads _ _
             (map Byte.to_N (PyStr.encode (payload o))) cps); try assumption.
    rewrite !map_app. reflexivity.
  - rewrite map_app. intros Hin. apply in_app_or in Hin as [Hin | Hin].
    + vm_compute in Hin. intuition discriminate.
    + contradiction.
Qed.

Lemma client_reads_first_frame_witness :
  Client._parse_sse_response_streaming (fun cps => inr (JArr (map (fun n => JNum (Z.of_N n)) cps)))
    (Client.lines_of
       (List.concat (fst (fst (_create_sse_stream
                                 (map Object [Plain (JNum 7); Plain (JNum 8)])
                                 Fixture.untouched)))))
  = inr (JArr [JNum 55]).
Proof.
  apply (proj1 (client_reads_first_frame
                  (fun cps => inr (JArr (map (fun n => JNum (Z.of_N n)) cps)))
                  (Plain (JNum 7)) [Plain (JNum 8)] Fixture.untouched [55%N])).
  - reflexivity.
  - vm_compute. intuition discriminate.
  - discriminate.
  - reflexivity.
  - discriminate.
Defined.

Section ClientViews.
Context `{C : Collaborators}.

Lemma comprehension_of_tools (ts : list (Tool US)) :
  Client.comprehension Client.function_of (map to_mcp_tool ts)
  = inr (map (fun tool =>
                JObj [("type", JStr "function");
                      ("function",
                        JObj [("name", JStr (name tool));
                              ("description", JStr (description tool));
                              ("parameters", input_schema tool)])]) ts).
Proof.
  induction ts as [|tool ts IH]; [reflexivity |].
  cbn [map Client.comprehension]. rewrite IH. reflexivity.
Qed.

End ClientViews.

(** X24.  [get_tools], given a response whose result is what the server's
    [handle_tools_list] built, returns one function description per tool of
    the registry, in the registry's order, with the tool's [name] and
    [description] and its input schema under [parameters].  Given a response
    without result (the empty dict that a 202 leaves) it returns the empty
    list. *)
Theorem client_lists_server_tools `{C : Collaborators}
    (self : MCPServer) (request : MCPRequest) (response : list (string * json)) :
  (PyDict.get "result" response = result (handle_tools_list self request) ->
   Client.get_tools response
   = inr (map (fun tool =>
                 JObj [("type", JStr "function");
                       ("function",
                         JObj [("name", JStr (name tool));
                               ("description", JStr (description tool));
                               ("parameters", input_schema tool)])])
            (PyDict.values (tools self)))) /\
  (PyDict.get "result" response = None -> Client.get_tools response = inr []).
Proof.
  split.
  - intros Hr. unfold Client.get_tools, get_default. rewrite Hr.
    cbn [handle_tools_list result Client.get_or get_default PyDict.get
           String.eqb Ascii.eqb Bool.eqb Client.iterate].
    apply comprehension_of_tools.
  - intros Hr. unfold Client.get_tools, get_default. now rewrite Hr.
Qed.

Lemma client_lists_server_tools_witness :
  let registered :=
    [GetUserByIdTool; SearchUsersTool; CreateUserTool; UpdateUserTool;
     DeleteUserTool] in
  let response :=
    [("jsonrpc", JStr "2.0"); ("id", JNum 1);
     ("result", JObj [("tools", JArr (map to_mcp_tool registered))])] in
  Client.get_tools response
  = inr (map (fun tool =>
                JObj [("type", JStr "function");
                      ("function",
                        JObj [("name", JStr (name tool));
                              ("description", JStr (description tool));
                              ("parameters", input_schema tool)])])
           registered) /\
  map name registered
  = ["get_user_by_id"; "search_users"; "add_user"; "update_user"; "delete_users"] /\
  Client.get_tools [] = inr [].
Proof.
  intros registered response.
  assert (Hvalues : PyDict.values (tools Fixture.operating) = registered)
    by (vm_compute; reflexivity).
  split; [| split].
  - rewrite <- Hvalues.
    apply (proj1 (client_lists_server_tools Fixture.operating
                    (mkRequest (JNum 1) "tools/list" None) response)).
    cbn [handle_tools_list result]. rewrite Hvalues. reflexivity.
  - reflexivity.
  - exact (proj2 (client_lists_server_tools Fixture.operating
                    (mkRequest (JNum 1) "tools/list" None) []) eq_refl).
Defined.

(** X25.  [call_tool], given a response whose result is what the server's
    [handle_tools_call] built for a registered tool, returns the text of the
    result: what the tool returned, or "Tool execution error: <message>" when
    it raised.  The client does not look at [isError], so a failed run reads
    like a successful one.  Given a response without result, it returns
    "Unexpected error occurred!". *)
Theorem client_returns_tool_text `{C : Collaborators}
    (self : MCPServer) (request : MCPRequest) (us : US)
    (p : list (string * json)) (n : string) (tool : Tool US)
    (response : list (string * json)) :
  (params request = Some p ->
   PyDict.get "name" p = Some (JStr n) ->
   n <> EmptyString ->
   PyDict.get n (tools self) = Some tool ->
   (forall r, fst (handle_tools_call self request us) = inr r ->
              PyDict.get "result" response = result r) ->
   Client.call_tool response
   = match fst (execute tool (get_default "arguments" (JObj []) p) us) with
     | Returns text => inr (JStr text)
     | Raises msg => inr (JStr ("Tool execution error: " +:+ msg))
     end) /\
  (PyDict.get "result" response = None ->
   Client.call_tool response = inr (JStr "Unexpected error occurred!")).
Proof.
  split.
  - intros Hp Hn Hne Ht Hr.
    rewrite (tools_call_runs_tool self request us p n tool Hp Hn Hne Ht) in Hr.
    destruct (execute tool (get_default "arguments" (JObj []) p) us)
      as [[text | msg] us']; cbn [fst] in *;
      unfold Client.call_tool, get_default; rewrite (Hr _ eq_refl); reflexivity.
  - intros Hr. unfold Client.call_tool, get_default. now rewrite Hr.
Qed.

Lemma client_returns_tool_text_witness :
  Client.call_tool
    [("id", JNum 1);
     ("result",
       JObj [("content",
               text_content "Tool execution error: user service is down");
             ("isError", JBool true)])]
  = inr (JStr "Tool execution error: user service is down").
Proof.
  apply (proj1 (client_returns_tool_text Fixture.operating
                  (mkRequest (JNum 1) "tools/call" (Some [("name", JStr "update_user")]))
                  Fixture.untouched [("name", JStr "update_user")] "update_user"
                  UpdateUserTool _)).
  - reflexivity.
  - reflexivity.
  - discriminate.
  - reflexivity.
  - intros r Hr. vm_compute in Hr. injection Hr as <-. reflexivity.
Defined.
